(** * The profile page of fe-exercise: posts of the logged-in user

    A shallow embedding of the [Profile] component (pages/Profile.tsx):
    its state hooks, the three asynchronous handlers [getPosts],
    [handlePostSubmit] and [handleDeletePost], and the JavaScript built-ins
    they rely on ([Array.prototype.filter], [Array.prototype.sort],
    [Date.prototype.getTime], [fetch]).

    The handlers are written in a small state monad over a tree of network
    requests, so that one handler can be run against any behaviour of the
    network and its requests, and the state rendered while each request is
    in flight, can be read off. *)

From Stdlib Require Import List String Ascii ZArith Lia Bool.
From Stdlib Require Import Permutation Sorted DecimalString.
Import ListNotations.

Local Open Scope string_scope.
Local Open Scope list_scope.
Local Open Scope Z_scope.

Set Implicit Arguments.

(* ================================================================== *)
(** ** Data model *)

(** [interface User]. *)
Module User.
Record t : Type := mk
  { id : string;
    firstName : string;
    lastName : string;
    email : string;
    password : string }.
End User.

(** [interface Post]. *)
Module Post.
Record t : Type := mk
  { id : string;
    userId : string;
    postedAt : string;
    title : string;
    text : string }.
End Post.

(** The draft held by the [newPost] hook: [{ title: "", text: "" }]. *)
Module NewPost.
Record t : Type := mk
  { title : string;
    text : string }.

Definition empty : t := mk "" "".
End NewPost.

(** The body built by [handlePostSubmit].  [userId] is [user?.id], which is
    [undefined] when no user is set. *)
Module NewPostData.
Record t : Type := mk
  { userId : option string;
    title : string;
    text : string;
    postedAt : string }.
End NewPostData.

(* ================================================================== *)
(** ** JavaScript values and built-ins *)

(** The numbers that occur here: [getTime()] yields an integral number of
    milliseconds (of magnitude at most 8.64e15) or [NaN].  The difference
    of two such integers is exact up to rounding to the nearest double,
    which preserves its sign, and the sort reads nothing but the sign. *)
Inductive Number : Type :=
| NaN
| Num (z : Z).

Definition Number_sub (a b : Number) : Number :=
  match a, b with
  | Num x, Num y => Num (x - y)
  | _, _ => NaN
  end.

(** [v > 0] on numbers; false for [NaN], which the sort treats as [+0]. *)
Definition Number_pos (v : Number) : bool :=
  match v with
  | Num z => 0 <? z
  | NaN => false
  end.

(** [a >= b] and [a > b]; a comparison with [NaN] is false. *)
Definition Number_geb (a b : Number) : bool :=
  match a, b with
  | Num x, Num y => y <=? x
  | _, _ => false
  end.

Definition Number_gtb (a b : Number) : bool :=
  match a, b with
  | Num x, Num y => y <? x
  | _, _ => false
  end.

(** [!s] for a string [s]: only the empty string is falsy. *)
Definition falsy (s : string) : bool :=
  match s with
  | EmptyString => true
  | String _ _ => false
  end.

(** [new Date(s).getTime()].  Which strings are recognised beyond the
    ISO format is left to the engine, and forms without an offset are read
    in the local time zone, so the parser is a parameter of the model. *)
Class DateModel : Type :=
  { Date_getTime : string -> Number }.

(** [Array.prototype.sort(comparefn)].  ECMAScript asks for a stable sort
    and leaves the sequence of comparisons to the engine; a stable
    insertion is used here.  An element moves behind its right neighbour
    only when [comparefn] is positive on the pair. *)
Fixpoint Array_insert (A : Type) (comparefn : A -> A -> Number)
         (x : A) (l : list A) : list A :=
  match l with
  | [] => [x]
  | y :: l' =>
      if Number_pos (comparefn x y)
      then y :: Array_insert comparefn x l'
      else x :: l
  end.

Fixpoint Array_sort (A : Type) (comparefn : A -> A -> Number)
         (l : list A) : list A :=
  match l with
  | [] => []
  | x :: l' => Array_insert comparefn x (Array_sort comparefn l')
  end.

(** [String.prototype.trim], on the ASCII white space and line
    terminators (tab, LF, VT, FF, CR, space).  The component never calls
    it; it is here to state what the draft validation is compared with. *)
Definition isWhiteSpace (c : ascii) : bool :=
  let n := nat_of_ascii c in
  ((9 <=? n)%nat && (n <=? 13)%nat) || (n =? 32)%nat.

Fixpoint trimStart (s : string) : string :=
  match s with
  | EmptyString => EmptyString
  | String c s' => if isWhiteSpace c then trimStart s' else s
  end.

Fixpoint string_rev_onto (s acc : string) : string :=
  match s with
  | EmptyString => acc
  | String c s' => string_rev_onto s' (String c acc)
  end.

Definition string_rev (s : string) : string := string_rev_onto s EmptyString.

Definition trimEnd (s : string) : string := string_rev (trimStart (string_rev s)).

Definition trim (s : string) : string := trimEnd (trimStart s).

(* ================================================================== *)
(** ** Component state *)

(** The [useState] hooks of [Profile]. *)
Record State : Type := mkState
  { user : option User.t;
    posts : list Post.t;
    showModal : bool;
    newPost : NewPost.t;
    isLoading : bool;
    error : option string;
    success : option string }.

Definition initialState : State :=
  mkState None [] false NewPost.empty false None None.

Definition withUser (v : option User.t) (s : State) : State :=
  mkState v (posts s) (showModal s) (newPost s) (isLoading s) (error s) (success s).
Definition withPosts (v : list Post.t) (s : State) : State :=
  mkState (user s) v (showModal s) (newPost s) (isLoading s) (error s) (success s).
Definition withShowModal (v : bool) (s : State) : State :=
  mkState (user s) (posts s) v (newPost s) (isLoading s) (error s) (success s).
Definition withNewPost (v : NewPost.t) (s : State) : State :=
  mkState (user s) (posts s) (showModal s) v (isLoading s) (error s) (success s).
Definition withIsLoading (v : bool) (s : State) : State :=
  mkState (user s) (posts s) (showModal s) (newPost s) v (error s) (success s).
Definition withError (v : option string) (s : State) : State :=
  mkState (user s) (posts s) (showModal s) (newPost s) (isLoading s) v (success s).
Definition withSuccess (v : option string) (s : State) : State :=
  mkState (user s) (posts s) (showModal s) (newPost s) (isLoading s) (error s) v.

(* ================================================================== *)
(** ** Network requests *)

(** The three [fetch] calls of the component. *)
Inductive Request : Type :=
| GET_posts
| POST_posts (body : NewPostData.t)
| DELETE_posts (postId : string).

(** What the component reads from a response that is [ok]: the parsed
    JSON of the list, the parsed JSON of the created post, nothing. *)
Definition Answer (req : Request) : Type :=
  match req with
  | GET_posts => list Post.t
  | POST_posts _ => Post.t
  | DELETE_posts _ => unit
  end.

(** A handler run up to its next [await fetch(...)]: either it has
    finished, or it waits for a response while [snapshot] is the state the
    page shows.  The continuation receives [None] when control reaches the
    [catch] block: [fetch] rejected, [response.ok] was false, or the body
    could not be read. *)
Inductive Prog (A : Type) : Type :=
| Ret (a : A)
| Await (snapshot : State) (req : Request) (k : option (Answer req) -> Prog A).

Arguments Ret {A} a.
Arguments Await {A} snapshot req k.

Fixpoint Prog_bind (A B : Type) (p : Prog A) (f : A -> Prog B) : Prog B :=
  match p with
  | Ret a => f a
  | Await s req k => Await s req (fun r => Prog_bind (k r) f)
  end.

(** State passing on top of the request tree. *)
Definition M (A : Type) : Type := State -> Prog (A * State).

Definition ret (A : Type) (a : A) : M A := fun s => Ret (a, s).

Definition bind (A B : Type) (m : M A) (f : A -> M B) : M B :=
  fun s => Prog_bind (m s) (fun '(a, s') => f a s').

Declare Scope hook_scope.
Delimit Scope hook_scope with hook.
Notation "x <- m ;; k" := (bind m (fun x => k))
  (at level 61, m at next level, right associativity) : hook_scope.
Notation "m ;; k" := (bind m (fun _ => k))
  (at level 61, right associativity) : hook_scope.
Local Open Scope hook_scope.

(** The closure of the current render: handlers read [user], [posts] and
    [newPost] from it. *)
Definition render : M State := fun s => Ret (s, s).

Definition modify (f : State -> State) : M unit := fun s => Ret (tt, f s).

Definition setUser (v : option User.t) : M unit := modify (withUser v).
Definition setPosts (v : list Post.t) : M unit := modify (withPosts v).
Definition setShowModal (v : bool) : M unit := modify (withShowModal v).
Definition setNewPost (v : NewPost.t) : M unit := modify (withNewPost v).
Definition setIsLoading (v : bool) : M unit := modify (withIsLoading v).
Definition setError (v : option string) : M unit := modify (withError v).
Definition setSuccess (v : option string) : M unit := modify (withSuccess v).

(** [setPosts((prevPosts) => ...)]. *)
Definition updatePosts (f : list Post.t -> list Post.t) : M unit :=
  modify (fun s => withPosts (f (posts s)) s).

(** [await fetch(...)] followed by the [response.ok] test and, where the
    handler does it, [await response.json()]. *)
Definition fetch (req : Request) : M (option (Answer req)) :=
  fun s => Await s req (fun r => Ret (r, s)).

(* ================================================================== *)
(** ** The handlers of [Profile] *)

Section Handlers.
Context {dates : DateModel}.

(** The comparator passed to [sort] in [getPosts]:
    [new Date(b.postedAt).getTime() - new Date(a.postedAt).getTime()]. *)
Definition byPostedAtDesc (a b : Post.t) : Number :=
  Number_sub (Date_getTime (Post.postedAt b)) (Date_getTime (Post.postedAt a)).

(** The ordering step of [getPosts]. *)
Definition orderPosts (l : list Post.t) : list Post.t :=
  Array_sort byPostedAtDesc l.

(** The time a post was posted at, and the orders it induces. *)
Definition timestamp (p : Post.t) : Number :=
  Date_getTime (Post.postedAt p).

Definition notOlder (a b : Post.t) : bool :=
  Number_geb (timestamp a) (timestamp b).

Definition newer (a b : Post.t) : bool :=
  Number_gtb (timestamp a) (timestamp b).

Definition postedAtTime (t : Z) (p : Post.t) : bool :=
  match timestamp p with
  | Num x => x =? t
  | NaN => false
  end.

(** [data.filter(post => post.userId === user.id).sort(...)]. *)
Definition userPosts (usr : User.t) (data : list Post.t) : list Post.t :=
  orderPosts
    (filter (fun post => String.eqb (Post.userId post) (User.id usr)) data).

Definition getPosts (usr : User.t) : M unit :=
  response <- fetch GET_posts ;;
  match response with
  | Some data => setPosts (userPosts usr data)
  | None => setError (Some "Failed to load posts.")
  end.

(** The effect run on mount.  [storedUser] is the parsed
    ["loggedInUser"] item, [None] when it is missing or does not parse
    (the page then navigates away). *)
Definition useEffect_mount (storedUser : option User.t) : M unit :=
  match storedUser with
  | None => ret tt
  | Some parsedUser => setUser (Some parsedUser) ;; getPosts parsedUser
  end.

Definition handleModalToggle : M unit :=
  cl <- render ;;
  setShowModal (negb (showModal cl)).

(** The two inputs wired to [handleInputChange], by their [name]. *)
Inductive InputName : Type := name_title | name_text.

Definition handleInputChange (name : InputName) (value : string) : M unit :=
  cl <- render ;;
  match name with
  | name_title => setNewPost (NewPost.mk value (NewPost.text (newPost cl)))
  | name_text => setNewPost (NewPost.mk (NewPost.title (newPost cl)) value)
  end.

(** The object [newPostData] of [handlePostSubmit]; [now] is
    [new Date().toISOString()] at the time of the submit. *)
Definition newPostData (cl : State) (now : string) : NewPostData.t :=
  NewPostData.mk (option_map User.id (user cl))
                 (NewPost.title (newPost cl))
                 (NewPost.text (newPost cl))
                 now.

Definition handlePostSubmit (now : string) : M unit :=
  cl <- render ;;
  if falsy (NewPost.title (newPost cl)) || falsy (NewPost.text (newPost cl))
  then setError (Some "Both title and content are required.")
  else
    setIsLoading true ;;
    response <- fetch (POST_posts (newPostData cl now)) ;;
    (match response with
     | Some addedPost =>
         setPosts (addedPost :: posts cl) ;;
         setSuccess (Some "Your post has been successfully added!") ;;
         setError None
     | None => ret tt
     end) ;;
    (match user cl with
     | Some usr => getPosts usr
     | None => ret tt
     end) ;;
    setError None ;;
    setNewPost NewPost.empty ;;
    setIsLoading false ;;
    setShowModal false.

Definition handleDeletePost (postId : string) : M unit :=
  cl <- render ;;
  setIsLoading true ;;
  response <- fetch (DELETE_posts postId) ;;
  (match response with
   | Some _ =>
       updatePosts
         (filter (fun post => negb (String.eqb (Post.id post) postId))) ;;
       setSuccess (Some "Your post has been successfully deleted!") ;;
       setError None
   | None => ret tt
   end) ;;
  (match user cl with
   | Some usr => getPosts usr
   | None => ret tt
   end) ;;
  setIsLoading false.

(** What can happen to a mounted component, one at a time. *)
Inductive Command : Type :=
| Mount (storedUser : option User.t)
| ToggleModal
| InputChange (name : InputName) (value : string)
| PostSubmit (now : string)
| DeletePost (postId : string).

Definition perform (c : Command) : M unit :=
  match c with
  | Mount storedUser => useEffect_mount storedUser
  | ToggleModal => handleModalToggle
  | InputChange name value => handleInputChange name value
  | PostSubmit now => handlePostSubmit now
  | DeletePost postId => handleDeletePost postId
  end.

End Handlers.

(* ================================================================== *)
(** ** Running a handler against a network *)

(** A network with internal state [W]: it answers each request, [None]
    standing for every outcome that sends the handler to its [catch]. *)
Definition Network (W : Type) : Type :=
  forall req : Request, W -> option (Answer req) * W.

(** A request as it leaves the page, with the state shown meanwhile. *)
Record Event : Type := mkEvent
  { shown : State;
    request : Request }.

Fixpoint run (W A : Type) (net : Network W) (p : Prog A) (w : W)
  : A * W * list Event :=
  match p with
  | Ret a => (a, w, [])
  | Await s req k =>
      let '(r, w1) := net req w in
      let '(a, w2, evs) := run net (k r) w1 in
      (a, w2, mkEvent s req :: evs)
  end.

(** Final state, final network state and the requests issued. *)
Definition exec (W : Type) (net : Network W) (m : M unit) (s : State) (w : W)
  : State * W * list Event :=
  let '(r, w', evs) := run net (m s) w in (snd r, w', evs).

Definition finalState (W : Type) (net : Network W) (m : M unit)
           (s : State) (w : W) : State :=
  fst (fst (exec net m s w)).

Definition finalWorld (W : Type) (net : Network W) (m : M unit)
           (s : State) (w : W) : W :=
  snd (fst (exec net m s w)).

Definition events (W : Type) (net : Network W) (m : M unit)
           (s : State) (w : W) : list Event :=
  snd (exec net m s w).

Definition requests (W : Type) (net : Network W) (m : M unit)
           (s : State) (w : W) : list Request :=
  map request (events net m s w).

(** A sequence of commands, each run to completion before the next. *)
Fixpoint session {dates : DateModel} (W : Type) (net : Network W)
         (cs : list Command) (s : State) (w : W) : State * W :=
  match cs with
  | [] => (s, w)
  | c :: cs' =>
      let '(s', w', _) := exec net (perform c) s w in
      session net cs' s' w'
  end.

(* ================================================================== *)
(** ** The remote post store *)

(** Modelled from the spec: the RemotePostStore behind
    [http://localhost:5001/posts], which is not part of the sources.
    [GET /posts] returns every record, [POST /posts] stores the body under
    an id chosen by the store and returns the created record,
    [DELETE /posts/{id}] removes the record and fails when there is none.
    [outages] lists, request by request, whether the transport fails
    before the store is reached.  A body without [userId] is outside the
    contract and is refused. *)
Record Remote : Type := mkRemote
  { db : list Post.t;
    assignId : list Post.t -> string;
    outages : list bool }.

Definition withDb (v : list Post.t) (w : Remote) : Remote :=
  mkRemote v (assignId w) (outages w).

Definition withOutages (v : list bool) (w : Remote) : Remote :=
  mkRemote (db w) (assignId w) v.

Definition hasId (postId : string) (p : Post.t) : bool :=
  String.eqb (Post.id p) postId.

(** Modelled from the spec: what the store answers to a request that
    reaches it, following the three entries of its HTTP contract. *)
Definition store (req : Request) : Remote -> option (Answer req) * Remote :=
  match req return Remote -> option (Answer req) * Remote with
  | GET_posts => fun w => (Some (db w), w)
  | POST_posts body => fun w =>
      match NewPostData.userId body with
      | Some uid =>
          let created :=
            Post.mk (assignId w (db w)) uid (NewPostData.postedAt body)
                    (NewPostData.title body) (NewPostData.text body) in
          (Some created, withDb (db w ++ [created]) w)
      | None => (None, w)
      end
  | DELETE_posts postId => fun w =>
      if existsb (hasId postId) (db w)
      then (Some tt, withDb (filter (fun p => negb (hasId postId p)) (db w)) w)
      else (None, w)
  end.

(** Modelled from the spec: the store behind a transport that may fail
    (the TransportError of the specification), in which case the request
    does not reach the store. *)
Definition remote : Network Remote :=
  fun req w =>
    match outages w with
    | true :: rest => (None, withOutages rest w)
    | false :: rest => store req (withOutages rest w)
    | [] => store req w
    end.

(* ================================================================== *)
(** ** Session storage and navigation *)

(** [JSON.stringify] on a user record and [JSON.parse] on the stored text,
    its result read as a user; [None] stands for the [SyntaxError] that
    [JSON.parse] throws.  The built-ins are a parameter of the model. *)
Class JSONModel : Type :=
  { JSON_stringify : User.t -> string;
    JSON_parse : string -> option User.t }.

(** What the two pages share: the ["loggedInUser"] item of [localStorage]
    and the path the router is at. *)
Record Browser : Type := mkBrowser
  { loggedInUser : option string;
    location : string }.

Definition localStorage_getItem (b : Browser) : option string :=
  loggedInUser b.

Definition localStorage_setItem (value : string) (b : Browser) : Browser :=
  mkBrowser (Some value) (location b).

Definition localStorage_removeItem (b : Browser) : Browser :=
  mkBrowser None (location b).

Definition navigate (to : string) (b : Browser) : Browser :=
  mkBrowser (loggedInUser b) to.

(** The effect of [Profile] in full: it reads the stored user, and either
    leaves for ["/"] or sets the user and loads the posts. *)
Definition Profile_useEffect {json : JSONModel} {dates : DateModel}
           (b : Browser) : Browser * M unit :=
  match localStorage_getItem b with
  | None => (navigate "/" b, ret tt)
  | Some storedUser =>
      if falsy storedUser then (navigate "/" b, ret tt)
      else
        match JSON_parse storedUser with
        | Some parsedUser =>
            (b, setUser (Some parsedUser) ;; getPosts parsedUser)
        | None => (navigate "/" b, ret tt)
        end
  end.

Definition handleLogout (b : Browser) : Browser :=
  navigate "/" (localStorage_removeItem b).

(** Commands other than the mount, which runs once per page. *)
Definition afterMount (c : Command) : bool :=
  match c with
  | Mount _ => false
  | _ => true
  end.

(* ================================================================== *)
(** ** The login form *)

(** The [Login] component (pages/Login.tsx). *)
Module Login.

(** The [error] hook: [{ email?: string; password?: string }]. *)
Module Error.
Record t : Type := mk
  { email : option string;
    password : option string }.

Definition empty : t := mk None None.

Definition withEmail (message : string) (prev : t) : t :=
  mk (Some message) (password prev).

Definition withPassword (message : string) (prev : t) : t :=
  mk (email prev) (Some message).

(** [Object.values(error).length > 0], the test of the alert. *)
Definition any (e : t) : bool :=
  match email e, password e with
  | None, None => false
  | _, _ => true
  end.
End Error.

(** The [useState] hooks of [Login]. *)
Record t : Type := mk
  { show : bool;
    email : string;
    password : string;
    error : Error.t;
    users : list User.t }.

Definition initial : t := mk false "" "" Error.empty [].

Definition setShow (v : bool) (s : t) : t :=
  mk v (email s) (password s) (error s) (users s).
Definition setEmail (v : string) (s : t) : t :=
  mk (show s) v (password s) (error s) (users s).
Definition setPassword (v : string) (s : t) : t :=
  mk (show s) (email s) v (error s) (users s).
Definition setError (v : Error.t) (s : t) : t :=
  mk (show s) (email s) (password s) v (users s).
Definition setUsers (v : list User.t) (s : t) : t :=
  mk (show s) (email s) (password s) (error s) v.

(** [setError((prev) => ...)]. *)
Definition updateError (f : Error.t -> Error.t) (s : t) : t :=
  setError (f (error s)) s.

(** The effect that loads [/db/data.json]; [None] when the fetch or the
    parsing fails, which is only logged. *)
Definition useEffect (response : option (list User.t)) (s : t) : t :=
  match response with
  | Some data_users => setUsers data_users s
  | None => s
  end.

Definition toggleModal (s : t) : t :=
  let s1 := setShow (negb (show s)) s in
  if negb (show s)
  then setError Error.empty (setPassword "" (setEmail "" s1))
  else s1.

(** The two callbacks of [users.find] in [handleSubmit]. *)
Definition sameCredentials (s : t) (user : User.t) : bool :=
  String.eqb (User.email user) (email s)
  && String.eqb (User.password user) (password s).

Definition sameEmail (s : t) (user : User.t) : bool :=
  String.eqb (User.email user) (email s).

Definition handleSubmit {json : JSONModel} (s : t) (b : Browser)
  : t * Browser :=
  let s0 := setError Error.empty s in
  let s1 :=
    if falsy (email s)
    then updateError (Error.withEmail "Email is required") s0
    else s0 in
  let s2 :=
    if falsy (password s)
    then updateError (Error.withPassword "Password is required") s1
    else s1 in
  if negb (falsy (email s)) && negb (falsy (password s))
  then
    match find (sameCredentials s) (users s) with
    | None =>
        match find (sameEmail s) (users s) with
        | Some existingEmail =>
            (updateError (Error.withPassword "Incorrect password") s2, b)
        | None =>
            (updateError
               (Error.withEmail
                  "This email is not registered. Create an account!") s2,
             b)
        end
    | Some user =>
        (setShow false s2,
         navigate "/profile"
                  (localStorage_setItem (JSON_stringify user) b))
    end
  else (s2, b).

End Login.

(* ================================================================== *)
(** ** A date parser for concrete instances *)

(** The format written by [toISOString], [YYYY-MM-DDTHH:mm:ss.sssZ], which
    every engine reads the same way; a string of another shape is taken as
    unrecognised.  It serves to evaluate the model on concrete posts, and
    is applied there to well-formed dates and to strings without any digit
    only. *)
Module ISO.

Definition digit (c : ascii) : option Z :=
  let n := nat_of_ascii c in
  if ((48 <=? n)%nat && (n <=? 57)%nat)%bool
  then Some (Z.of_nat n - 48)
  else None.

(** The number written by the [len] digits of [s] from position [i]. *)
Fixpoint digitsFrom (s : string) (i len : nat) (acc : Z) : option Z :=
  match len with
  | O => Some acc
  | S len' =>
      match String.get i s with
      | Some c =>
          match digit c with
          | Some d => digitsFrom s (S i) len' (10 * acc + d)
          | None => None
          end
      | None => None
      end
  end.

Definition isChar (s : string) (i : nat) (c : ascii) : bool :=
  match String.get i s with
  | Some c' => Ascii.eqb c c'
  | None => false
  end.

Definition isLeap (y : Z) : bool :=
  ((y mod 4 =? 0) && negb (y mod 100 =? 0)) || (y mod 400 =? 0).

Definition daysInMonth (y m : Z) : Z :=
  if m =? 2 then (if isLeap y then 29 else 28)
  else if (m =? 4) || (m =? 6) || (m =? 9) || (m =? 11) then 30
  else 31.

(** Days from 1970-01-01 to the given civil date. *)
Definition daysFromCivil (y m d : Z) : Z :=
  let y' := if m <=? 2 then y - 1 else y in
  let era := y' / 400 in
  let yoe := y' - era * 400 in
  let doy := (153 * (if 2 <? m then m - 3 else m + 9) + 2) / 5 + d - 1 in
  let doe := yoe * 365 + yoe / 4 - yoe / 100 + doy in
  era * 146097 + doe - 719468.

Definition getTime (s : string) : Number :=
  if negb (Nat.eqb (String.length s) 24) then NaN
  else if negb (isChar s 4 "-" && isChar s 7 "-" && isChar s 10 "T"
                && isChar s 13 ":" && isChar s 16 ":" && isChar s 19 "."
                && isChar s 23 "Z")
  then NaN
  else
    match digitsFrom s 0 4 0, digitsFrom s 5 2 0, digitsFrom s 8 2 0,
          digitsFrom s 11 2 0, digitsFrom s 14 2 0, digitsFrom s 17 2 0,
          digitsFrom s 20 3 0 with
    | Some y, Some mo, Some d, Some h, Some mi, Some sec, Some ms =>
        if (1 <=? mo) && (mo <=? 12) && (1 <=? d) && (d <=? daysInMonth y mo)
           && (h <=? 23) && (mi <=? 59) && (sec <=? 59)
        then Num (daysFromCivil y mo d * 86400000
                  + h * 3600000 + mi * 60000 + sec * 1000 + ms)
        else NaN
    | _, _, _, _, _, _, _ => NaN
    end.

Definition dates : DateModel := {| Date_getTime := getTime |}.

End ISO.

(* ================================================================== *)
(** ** Concrete users, posts and stores *)

Module Example.

Definition alice : User.t :=
  User.mk "u1" "Alice" "Archer" "alice@example.com" "secret".

Definition january1 : Post.t :=
  Post.mk "p1" "u1" "2024-01-01T00:00:00.000Z" "First" "hello".

Definition january2 : Post.t :=
  Post.mk "p2" "u1" "2024-01-02T00:00:00.000Z" "Second" "hello again".

Definition undated : Post.t :=
  Post.mk "p3" "u1" "unknown" "Third" "when was this".

Definition unstamped : Post.t :=
  Post.mk "p5" "u1" "" "Fifth" "no date at all".

Definition foreign : Post.t :=
  Post.mk "p4" "u2" "2024-01-02T00:00:00.000Z" "Other" "not mine".

(** A store that numbers its records. *)
Definition numbered (l : list Post.t) : string :=
  String.append "n" (NilEmpty.string_of_uint (Nat.to_uint (S (List.length l)))).

Definition server (records : list Post.t) (down : list bool) : Remote :=
  mkRemote records numbered down.

(** The page of [alice] right after mounting, nothing loaded yet. *)
Definition mounted : State := withUser (Some alice) initialState.

Definition drafting (title text : string) (s : State) : State :=
  withNewPost (NewPost.mk title text) s.

(** The time of a submit. *)
Definition january3 : string := "2024-01-03T00:00:00.000Z".

(** The store holding one post of [alice] and one of another user,
    reachable, and with the transport down for the next two requests. *)
Definition reachable : Remote := server [january1; foreign] [].

Definition unreachable : Remote := server [january1; foreign] [true; true].

(** The page of [alice] after its posts have been loaded on mount. *)
Definition loaded : State :=
  finalState remote (useEffect_mount (dates := ISO.dates) (Some alice))
             initialState reachable.

(** The page after a submit of the empty draft has been refused. *)
Definition refused : State :=
  finalState remote (handlePostSubmit (dates := ISO.dates) january3)
             loaded reachable.

(** Filling in the form and submitting it. *)
Definition writing (title text : string) : list Command :=
  [InputChange name_title title; InputChange name_text text;
   PostSubmit january3].

(** The page, and the store, after [alice] has published a post. *)
Definition published : State :=
  fst (session (dates := ISO.dates) remote
               (writing "Title" "Text") loaded reachable).

Definition extended : Remote :=
  snd (session (dates := ISO.dates) remote
               (writing "Title" "Text") loaded reachable).

End Example.

(* ================================================================== *)
(** ** JSON text for concrete instances *)

(** The text [JSON.stringify] writes for a record of five string fields,
    and a reader for objects of that kind.  Only the double quote and the
    backslash are escaped, and no white space is read: this covers records
    without control characters.  It serves to evaluate the model on
    concrete users, and is applied there to the text written for a user
    and to text that is no JSON at all only. *)
Module JSONText.

Definition dquote : ascii := ascii_of_nat 34.
Definition backslash : ascii := ascii_of_nat 92.

Fixpoint escape (s : string) : string :=
  match s with
  | EmptyString => EmptyString
  | String c s' =>
      if Ascii.eqb c dquote || Ascii.eqb c backslash
      then String backslash (String c (escape s'))
      else String c (escape s')
  end.

Definition quoted (s : string) : string :=
  String dquote (String.append (escape s) (String dquote EmptyString)).

Definition member (key value : string) : string :=
  String.append (quoted key) (String.append ":" (quoted value)).

Definition stringify (u : User.t) : string :=
  String.append "{"
    (String.concat ","
       [member "id" (User.id u);
        member "firstName" (User.firstName u);
        member "lastName" (User.lastName u);
        member "email" (User.email u);
        member "password" (User.password u)] ++ "}")%string.

(** The characters of a string literal after its opening quote, and the
    text behind its closing quote. *)
Fixpoint readChars (s : string) : option (string * string) :=
  match s with
  | EmptyString => None
  | String c rest =>
      if Ascii.eqb c dquote then Some (EmptyString, rest)
      else if Ascii.eqb c backslash then
        match rest with
        | EmptyString => None
        | String d rest' =>
            if Ascii.eqb d dquote || Ascii.eqb d backslash
            then
              match readChars rest' with
              | Some (v, behind) => Some (String d v, behind)
              | None => None
              end
            else None
        end
      else
        match readChars rest with
        | Some (v, behind) => Some (String c v, behind)
        | None => None
        end
  end.

Definition readString (s : string) : option (string * string) :=
  match s with
  | String c rest => if Ascii.eqb c dquote then readChars rest else None
  | EmptyString => None
  end.

Definition expect (c : ascii) (s : string) : option string :=
  match s with
  | String c' rest => if Ascii.eqb c c' then Some rest else None
  | EmptyString => None
  end.

(** The members of an object after its opening brace. *)
Fixpoint readMembers (fuel : nat) (s : string)
  : option (list (string * string)) :=
  match fuel with
  | O => None
  | S fuel' =>
      match readString s with
      | None => None
      | Some (key, s1) =>
          match expect ":" s1 with
          | None => None
          | Some s2 =>
              match readString s2 with
              | None => None
              | Some (value, s3) =>
                  match s3 with
                  | String c rest =>
                      if Ascii.eqb c "}" then
                        match rest with
                        | EmptyString => Some [(key, value)]
                        | String _ _ => None
                        end
                      else if Ascii.eqb c "," then
                        match readMembers fuel' rest with
                        | Some l => Some ((key, value) :: l)
                        | None => None
                        end
                      else None
                  | EmptyString => None
                  end
              end
          end
      end
  end.

Fixpoint field (key : string) (l : list (string * string)) : option string :=
  match l with
  | [] => None
  | (k, v) :: l' =>
      match field key l' with
      | Some later => Some later
      | None => if String.eqb k key then Some v else None
      end
  end.

Definition parse (s : string) : option User.t :=
  match expect "{" s with
  | None => None
  | Some s1 =>
      match readMembers (String.length s) s1 with
      | None => None
      | Some l =>
          match field "id" l, field "firstName" l, field "lastName" l,
                field "email" l, field "password" l with
          | Some i, Some f, Some n, Some e, Some p => Some (User.mk i f n e p)
          | _, _, _, _, _ => None
          end
      end
  end.

Definition json : JSONModel :=
  {| JSON_stringify := stringify; JSON_parse := parse |}.

End JSONText.

(* ================================================================== *)
(** ** Concrete logins *)

Module Scenario.

Definition bob : User.t :=
  User.mk "u2" "Bob" "Baker" "bob@example.com" "hunter2".

Definition registered : list User.t := [Example.alice; bob].

(** The open login form with the given entries. *)
Definition form (email password : string) : Login.t :=
  Login.mk true email password Login.Error.empty registered.

(** The browser at the login page, nobody logged in. *)
Definition atLogin : Browser := mkBrowser None "/".

(** The browser after [alice] has logged in. *)
Definition loggedIn : Browser :=
  snd (Login.handleSubmit (json := JSONText.json)
                          (form "alice@example.com" "secret") atLogin).

(** A page of [alice] showing two of her posts. *)
Definition twoPosts : State :=
  withPosts [Example.january2; Example.january1] Example.mounted.

(** A store whose transport is down for the list request of the mount, up
    for the create request that follows, and down for the three requests
    after that. *)
Definition flaky : Remote :=
  Example.server [Example.january1; Example.foreign]
                 [true; false; true; true; true].

(** The page of [alice], and the store, after a mount and a submit on
    that store: the posts were never listed, and the created post is
    shown. *)
Definition stranded : State :=
  fst (session (dates := ISO.dates) remote
               (Mount (Some Example.alice) :: Example.writing "Title" "Text")
               initialState flaky).

Definition strandedStore : Remote :=
  snd (session (dates := ISO.dates) remote
               (Mount (Some Example.alice) :: Example.writing "Title" "Text")
               initialState flaky).

End Scenario.

(* ================================================================== *)
(** ** Proof steps shared by the handlers *)

(** Expose the request tree of a handler. *)
Ltac unfold_handlers :=
  unfold finalState, finalWorld, requests, events, exec,
         handlePostSubmit, handleDeletePost, useEffect_mount, getPosts,
         handleModalToggle, handleInputChange,
         bind, ret, render, fetch,
         setUser, setPosts, setShowModal, setNewPost, setIsLoading,
         setError, setSuccess, updatePosts, modify.

(** Case analysis on the answer to the list request in the goal. *)
Ltac case_list_answer :=
  match goal with
  | |- context [@fst ?A ?B (?net GET_posts ?w)] =>
      destruct (@fst A B (net GET_posts w))
  end.

(* ================================================================== *)
(** ** The sort *)

Unset Implicit Arguments.

Section SortFacts.
Variable A : Type.
Variable comparefn : A -> A -> Number.

Lemma Array_insert_perm (x : A) (l : list A) :
  Permutation (x :: l) (Array_insert comparefn x l).
Proof.
  induction l as [|y l IH]; cbn.
  - apply Permutation_refl.
  - destruct (Number_pos (comparefn x y)).
    + eapply perm_trans; [apply perm_swap|].
      now apply perm_skip.
    + apply Permutation_refl.
Qed.

Lemma Array_sort_perm (l : list A) :
  Permutation l (Array_sort comparefn l).
Proof.
  induction l as [|x l IH]; cbn.
  - apply perm_nil.
  - eapply perm_trans; [apply perm_skip, IH|].
    apply Array_insert_perm.
Qed.

(** An element that the filter drops can be inserted anywhere. *)
Lemma filter_Array_insert_out (f : A -> bool) (x : A) (l : list A) :
  f x = false ->
  filter f (Array_insert comparefn x l) = filter f l.
Proof.
  intros Hx. induction l as [|y l IH]; cbn.
  - now rewrite Hx.
  - destruct (Number_pos (comparefn x y)); cbn.
    + now rewrite IH.
    + now rewrite Hx.
Qed.

(** An element stays in front of the ones the filter keeps, as long as it
    only moves behind elements the filter drops. *)
Lemma filter_Array_insert_in (f : A -> bool) (x : A) (l : list A) :
  f x = true ->
  (forall y, In y l -> Number_pos (comparefn x y) = true -> f y = false) ->
  filter f (Array_insert comparefn x l) = x :: filter f l.
Proof.
  intros Hx. induction l as [|y l IH]; cbn; intros Hpass.
  - now rewrite Hx.
  - destruct (Number_pos (comparefn x y)) eqn:E; cbn.
    + rewrite (Hpass y (or_introl eq_refl) E).
      apply IH. intros z Hz. apply Hpass. now right.
    + now rewrite Hx.
Qed.

End SortFacts.

(* ================================================================== *)
(** ** The ordering step *)

Section Ordering.
Context {dates : DateModel}.

Lemma byPostedAtDesc_pos (a b : Post.t) (x y : Z) :
  timestamp a = Num x ->
  timestamp b = Num y ->
  Number_pos (byPostedAtDesc a b) = (x <? y).
Proof.
  unfold timestamp, byPostedAtDesc. intros -> ->. cbn.
  destruct (Z.ltb_spec 0 (y - x)); destruct (Z.ltb_spec x y); lia || reflexivity.
Qed.

Lemma dated_inv (p : Post.t) :
  timestamp p <> NaN -> exists x, timestamp p = Num x.
Proof.
  destruct (timestamp p) as [|x]; [congruence | now exists x].
Qed.

Lemma notOlder_spec (a b : Post.t) (x y : Z) :
  timestamp a = Num x -> timestamp b = Num y ->
  notOlder a b = true <-> y <= x.
Proof.
  unfold notOlder. intros -> ->. cbn. apply Z.leb_le.
Qed.

Lemma newer_spec (a b : Post.t) (x y : Z) :
  timestamp a = Num x -> timestamp b = Num y ->
  newer a b = true <-> y < x.
Proof.
  unfold newer. intros -> ->. cbn. apply Z.ltb_lt.
Qed.

Lemma orderPosts_perm (l : list Post.t) : Permutation l (orderPosts l).
Proof. apply Array_sort_perm. Qed.

Lemma orderPosts_dated (l : list Post.t) :
  Forall (fun p => timestamp p <> NaN) l ->
  Forall (fun p => timestamp p <> NaN) (orderPosts l).
Proof. apply Permutation_Forall, orderPosts_perm. Qed.

Lemma Array_insert_sorted (x : Post.t) (l : list Post.t) :
  timestamp x <> NaN ->
  Forall (fun p => timestamp p <> NaN) l ->
  StronglySorted (fun a b => notOlder a b = true) l ->
  StronglySorted (fun a b => notOlder a b = true)
                 (Array_insert byPostedAtDesc x l).
Proof.
  intros Hx Hl Hs. destruct (dated_inv _ Hx) as [tx Ex].
  induction l as [|y l IH]; cbn.
  - repeat constructor.
  - inversion Hl as [|? ? Hy Hl']; subst.
    inversion Hs as [|? ? Hs' Hyl]; subst.
    destruct (dated_inv _ Hy) as [ty Ey].
    rewrite (byPostedAtDesc_pos _ _ _ _ Ex Ey).
    destruct (Z.ltb_spec tx ty) as [Hlt|Hge].
    + constructor; [now apply IH|].
      eapply Permutation_Forall; [apply Array_insert_perm|].
      constructor; [|assumption].
      apply (notOlder_spec _ _ _ _ Ey Ex). lia.
    + constructor; [assumption|].
      constructor; [apply (notOlder_spec _ _ _ _ Ex Ey); lia|].
      rewrite Forall_forall in *. intros z Hz.
      destruct (dated_inv _ (Hl' z Hz)) as [tz Ez].
      apply (notOlder_spec _ _ _ _ Ex Ez).
      pose proof (proj1 (notOlder_spec _ _ _ _ Ey Ez) (Hyl z Hz)). lia.
Qed.

Lemma orderPosts_sorted (l : list Post.t) :
  Forall (fun p => timestamp p <> NaN) l ->
  StronglySorted (fun a b => notOlder a b = true) (orderPosts l).
Proof.
  induction l as [|x l IH]; cbn; intros Hl.
  - constructor.
  - inversion Hl; subst.
    apply Array_insert_sorted; auto.
    now apply orderPosts_dated.
Qed.

(** A descending list without two equal timestamps descends strictly. *)
Lemma sorted_distinct_strict (r : list Post.t) :
  Forall (fun p => timestamp p <> NaN) r ->
  StronglySorted (fun a b => notOlder a b = true) r ->
  NoDup (map timestamp r) ->
  StronglySorted (fun a b => newer a b = true) r.
Proof.
  induction r as [|x r IH]; cbn; intros Hd Hs Hn.
  - constructor.
  - inversion Hd as [|? ? Hx Hr]; subst.
    inversion Hs as [|? ? Hs' Hxr]; subst.
    inversion Hn as [|? ? Hnotin Hn']; subst.
    constructor; [now apply IH|].
    rewrite Forall_forall in *. intros z Hz.
    destruct (dated_inv _ Hx) as [tx Ex].
    destruct (dated_inv _ (Hr z Hz)) as [tz Ez].
    apply (newer_spec _ _ _ _ Ex Ez).
    pose proof (proj1 (notOlder_spec _ _ _ _ Ex Ez) (Hxr z Hz)) as Hle.
    assert (tx <> tz); [|lia].
    intros ->. apply Hnotin. rewrite Ex, <- Ez. now apply in_map.
Qed.

Lemma orderPosts_stable (l : list Post.t) (t : Z) :
  Forall (fun p => timestamp p <> NaN) l ->
  filter (postedAtTime t) (orderPosts l) = filter (postedAtTime t) l.
Proof.
  induction l as [|x l IH]; intros Hl; [reflexivity|].
  inversion Hl as [|? ? Hx Hl']; subst.
  change (orderPosts (x :: l))
    with (Array_insert byPostedAtDesc x (orderPosts l)).
  cbn [filter].
  destruct (postedAtTime t x) eqn:Ex.
  - rewrite filter_Array_insert_in; [now rewrite IH| assumption |].
    intros y Hy Hpos.
    assert (Hdy : timestamp y <> NaN).
    { pose proof (orderPosts_dated _ Hl') as Hall.
      rewrite Forall_forall in Hall. now apply Hall. }
    destruct (dated_inv _ Hx) as [tx Etx].
    destruct (dated_inv _ Hdy) as [ty Ety].
    rewrite (byPostedAtDesc_pos _ _ _ _ Etx Ety) in Hpos.
    unfold postedAtTime in *. rewrite Etx in Ex. rewrite Ety.
    apply Z.ltb_lt in Hpos. apply Z.eqb_eq in Ex. apply Z.eqb_neq. lia.
  - rewrite filter_Array_insert_out; auto.
Qed.

(** A list of two or more posts can only descend when each post has a
    date, a comparison with [NaN] being false. *)
Lemma descending_dated (r : list Post.t) :
  StronglySorted (fun a b => notOlder a b = true) r ->
  (2 <= List.length r)%nat ->
  Forall (fun p => timestamp p <> NaN) r.
Proof.
  intros Hs Hlen. destruct r as [|x [|y r]]; cbn in Hlen; try lia.
  inversion Hs as [|? ? _ Hx]; subst.
  assert (Hall : Forall (fun p => timestamp p <> NaN) (y :: r)).
  { eapply Forall_impl; [|exact Hx]. cbn. intros p. unfold notOlder.
    destruct (timestamp x), (timestamp p); cbn; congruence. }
  constructor; [|exact Hall].
  inversion Hx as [|? ? Hxy _]; subst. unfold notOlder in Hxy.
  destruct (timestamp x); cbn in Hxy; congruence.
Qed.

(** C2 (as amended): on posts whose [postedAt] all denote a date, the
    ordering step returns the same posts, most recent first; when no two
    timestamps are equal the result descends strictly, and posts with the
    same timestamp keep the order they had in the input. *)
Theorem orderPosts_descending_stable (l : list Post.t) :
  Forall (fun p => timestamp p <> NaN) l ->
  Permutation l (orderPosts l)
  /\ StronglySorted (fun a b => notOlder a b = true) (orderPosts l)
  /\ (NoDup (map timestamp l) ->
      StronglySorted (fun a b => newer a b = true) (orderPosts l))
  /\ (forall t, filter (postedAtTime t) (orderPosts l)
                = filter (postedAtTime t) l).
Proof.
  intros Hl. split; [apply orderPosts_perm|].
  split; [now apply orderPosts_sorted|]. split.
  - intros Hn. apply sorted_distinct_strict.
    + now apply orderPosts_dated.
    + now apply orderPosts_sorted.
    + eapply Permutation_NoDup; [|exact Hn].
      apply Permutation_map, orderPosts_perm.
  - intros t. now apply orderPosts_stable.
Qed.

End Ordering.

(* ================================================================== *)
(** ** The handlers, run against an arbitrary network *)

Section Running.
Context {dates : DateModel}.
Variable W : Type.
Variable net : Network W.

Lemma userPosts_In (usr : User.t) (data : list Post.t) (post : Post.t) :
  In post (userPosts usr data)
  <-> In post data /\ Post.userId post = User.id usr.
Proof.
  unfold userPosts. split.
  - intros Hin.
    apply (Permutation_in _ (Permutation_sym (orderPosts_perm _))) in Hin.
    apply filter_In in Hin. now rewrite String.eqb_eq in Hin.
  - intros [Hin Heq].
    apply (Permutation_in _ (orderPosts_perm _)).
    apply filter_In. now rewrite String.eqb_eq.
Qed.

(** [getPosts] issues one request and, from its answer, either replaces
    [posts] or sets [error]; it writes no other hook. *)
Lemma exec_getPosts (usr : User.t) (s : State) (w : W) :
  exec net (getPosts usr) s w =
  (match fst (net GET_posts w) with
   | Some data => withPosts (userPosts usr data) s
   | None => withError (Some "Failed to load posts.") s
   end,
   snd (net GET_posts w),
   [mkEvent s GET_posts]).
Proof.
  unfold_handlers. cbn.
  destruct (net GET_posts w) as [[data|] w1]; reflexivity.
Qed.

Lemma exec_mount (usr : User.t) (s : State) (w : W) :
  exec net (useEffect_mount (Some usr)) s w =
  exec net (getPosts usr) (withUser (Some usr) s) w.
Proof. reflexivity. Qed.

(** C1: whatever the store returns, the list that [getPosts] puts into
    [posts] consists of exactly the returned posts whose [userId] is the
    id of the user, so no post of another user is displayed; when the
    fetch fails the list is not touched. *)
Theorem getPosts_only_own_posts (usr : User.t) (s : State) (w : W) :
  match fst (net GET_posts w) with
  | Some data =>
      posts (finalState net (getPosts usr) s w) = userPosts usr data
      /\ Forall (fun post => Post.userId post = User.id usr)
                (posts (finalState net (getPosts usr) s w))
      /\ (forall post,
             In post (posts (finalState net (getPosts usr) s w))
             <-> In post data /\ Post.userId post = User.id usr)
  | None => posts (finalState net (getPosts usr) s w) = posts s
  end.
Proof.
  unfold finalState. rewrite exec_getPosts. cbn [fst snd].
  destruct (fst (net GET_posts w)) as [data|]; [|reflexivity].
  cbn [posts withPosts]. split; [reflexivity|]. split.
  - apply Forall_forall. intros post Hin. now apply userPosts_In in Hin.
  - intros post. apply userPosts_In.
Qed.

(** C7 (as amended): when the fetch of [getPosts] fails, [error] becomes
    "Failed to load posts." and nothing else changes: [posts] keeps the
    list it had, which is the empty one when the page has just mounted. *)
Theorem getPosts_failure_keeps_posts (usr : User.t) (s : State) (w : W) :
  fst (net GET_posts w) = None ->
  finalState net (getPosts usr) s w
  = withError (Some "Failed to load posts.") s
  /\ error (finalState net (getPosts usr) s w)
     = Some "Failed to load posts."
  /\ posts (finalState net (getPosts usr) s w) = posts s
  /\ posts (finalState net (useEffect_mount (Some usr)) initialState w) = [].
Proof.
  intros Hfail. unfold finalState.
  rewrite exec_mount, !exec_getPosts, Hfail. cbn. auto.
Qed.

(** *** [handlePostSubmit] *)

Lemma handlePostSubmit_invalid (now : string) (s : State) :
  falsy (NewPost.title (newPost s)) || falsy (NewPost.text (newPost s)) = true ->
  handlePostSubmit now s
  = Ret (tt, withError (Some "Both title and content are required.") s).
Proof.
  intros Hbad. unfold_handlers. cbn. now rewrite Hbad.
Qed.

(** The run of a submit that passes the validation: the request that
    creates the post, then, when a user is set, the request that lists
    the posts again, then the hooks written in [finally]. *)
Lemma exec_handlePostSubmit (now : string) (s : State) (w : W) :
  falsy (NewPost.title (newPost s)) = false ->
  falsy (NewPost.text (newPost s)) = false ->
  exec net (handlePostSubmit now) s w =
  let s0 := withIsLoading true s in
  let r1 := net (POST_posts (newPostData s now)) w in
  let s1 :=
    match fst r1 with
    | Some addedPost =>
        withError None
          (withSuccess (Some "Your post has been successfully added!")
             (withPosts (addedPost :: posts s) s0))
    | None => s0
    end in
  let finally s2 :=
    withShowModal false
      (withIsLoading false (withNewPost NewPost.empty (withError None s2))) in
  match user s with
  | Some usr =>
      let r2 := net GET_posts (snd r1) in
      (finally
         match fst r2 with
         | Some data => withPosts (userPosts usr data) s1
         | None => withError (Some "Failed to load posts.") s1
         end,
       snd r2,
       [mkEvent s0 (POST_posts (newPostData s now)); mkEvent s1 GET_posts])
  | None =>
      (finally s1, snd r1, [mkEvent s0 (POST_posts (newPostData s now))])
  end.
Proof.
  intros Htitle Htext. unfold_handlers. cbn.
  rewrite Htitle, Htext. cbn.
  destruct (net (POST_posts (newPostData s now)) w) as [[addedPost|] w1];
    cbn; destruct (user s) as [usr|]; cbn; try reflexivity;
    destruct (net GET_posts w1) as [[data|] w2]; reflexivity.
Qed.

(** *** [handleDeletePost] *)

Lemma exec_handleDeletePost (postId : string) (s : State) (w : W) :
  exec net (handleDeletePost postId) s w =
  let s0 := withIsLoading true s in
  let r1 := net (DELETE_posts postId) w in
  let s1 :=
    match fst r1 with
    | Some _ =>
        withError None
          (withSuccess (Some "Your post has been successfully deleted!")
             (withPosts
                (filter (fun post => negb (String.eqb (Post.id post) postId))
                        (posts s))
                s0))
    | None => s0
    end in
  match user s with
  | Some usr =>
      let r2 := net GET_posts (snd r1) in
      (withIsLoading false
         match fst r2 with
         | Some data => withPosts (userPosts usr data) s1
         | None => withError (Some "Failed to load posts.") s1
         end,
       snd r2,
       [mkEvent s0 (DELETE_posts postId); mkEvent s1 GET_posts])
  | None =>
      (withIsLoading false s1, snd r1, [mkEvent s0 (DELETE_posts postId)])
  end.
Proof.
  unfold_handlers. cbn.
  destruct (net (DELETE_posts postId) w) as [[[]|] w1];
    cbn; destruct (user s) as [usr|]; cbn; try reflexivity;
    destruct (net GET_posts w1) as [[data|] w2]; reflexivity.
Qed.

Lemma falsy_false (t : string) : t <> "" -> falsy t = false.
Proof. destruct t; [congruence | reflexivity]. Qed.

Lemma falsy_true (t : string) : t = "" -> falsy t = true.
Proof. now intros ->. Qed.

(** C3 (as amended): when the title or the text of the draft is the
    empty string (the draft is not trimmed), [handlePostSubmit] sets
    [error] to the validation message and returns at once: it issues no
    request, and [isLoading], [posts] and every other hook keep their
    values. *)
Theorem handlePostSubmit_empty_field_short_circuit
        (now : string) (s : State) (w : W) :
  NewPost.title (newPost s) = "" \/ NewPost.text (newPost s) = "" ->
  exec net (handlePostSubmit now) s w
  = (withError (Some "Both title and content are required.") s, w, [])
  /\ requests net (handlePostSubmit now) s w = []
  /\ error (finalState net (handlePostSubmit now) s w)
     = Some "Both title and content are required."
  /\ isLoading (finalState net (handlePostSubmit now) s w) = isLoading s
  /\ posts (finalState net (handlePostSubmit now) s w) = posts s.
Proof.
  intros Hempty.
  assert (Hbad : falsy (NewPost.title (newPost s))
                 || falsy (NewPost.text (newPost s)) = true).
  { destruct Hempty as [E|E]; rewrite (falsy_true _ E);
      [reflexivity | apply orb_true_r]. }
  unfold finalState, requests, events, exec.
  rewrite (handlePostSubmit_invalid now s Hbad). cbn. auto.
Qed.

(** C5: a submit that passes the validation issues exactly one create
    request and then, whether or not that request succeeded, one list
    request; in both cases it ends with [isLoading] false, the draft
    emptied and [error] null, and [posts] is what the list request
    returned.  The create request is not repeated. *)
Theorem handlePostSubmit_always_relists
        (now : string) (s : State) (w : W) (usr : User.t) :
  user s = Some usr ->
  NewPost.title (newPost s) <> "" ->
  NewPost.text (newPost s) <> "" ->
  requests net (handlePostSubmit now) s w
  = [POST_posts (newPostData s now); GET_posts]
  /\ isLoading (finalState net (handlePostSubmit now) s w) = false
  /\ newPost (finalState net (handlePostSubmit now) s w) = NewPost.empty
  /\ error (finalState net (handlePostSubmit now) s w) = None
  /\ (forall data,
         fst (net GET_posts (snd (net (POST_posts (newPostData s now)) w)))
         = Some data ->
         posts (finalState net (handlePostSubmit now) s w)
         = userPosts usr data).
Proof.
  intros Hu Htitle Htext.
  unfold finalState, requests, events.
  rewrite (exec_handlePostSubmit now s w
             (falsy_false _ Htitle) (falsy_false _ Htext)).
  cbv zeta. rewrite Hu. cbn.
  repeat split. intros data ->. reflexivity.
Qed.

(** *** The loading flag *)

(** C8 (as amended): a submit that passes the validation and a delete
    show [isLoading] true while each of their requests is in flight and
    end with [isLoading] false, whatever the network answers; [getPosts]
    on its own never writes [isLoading]: the flag has the value it had
    before, both during its request and afterwards. *)
Theorem isLoading_set_by_submit_and_delete_only :
  (forall (now : string) (s : State) (w : W),
      NewPost.title (newPost s) <> "" ->
      NewPost.text (newPost s) <> "" ->
      events net (handlePostSubmit now) s w <> []
      /\ Forall (fun e => isLoading (shown e) = true)
                (events net (handlePostSubmit now) s w)
      /\ isLoading (finalState net (handlePostSubmit now) s w) = false)
  /\ (forall (postId : string) (s : State) (w : W),
         events net (handleDeletePost postId) s w <> []
         /\ Forall (fun e => isLoading (shown e) = true)
                   (events net (handleDeletePost postId) s w)
         /\ isLoading (finalState net (handleDeletePost postId) s w) = false)
  /\ (forall (usr : User.t) (s : State) (w : W),
         events net (getPosts usr) s w <> []
         /\ Forall (fun e => isLoading (shown e) = isLoading s)
                   (events net (getPosts usr) s w)
         /\ isLoading (finalState net (getPosts usr) s w) = isLoading s).
Proof.
  split; [|split].
  - intros now s w Htitle Htext. unfold finalState, events.
    rewrite (exec_handlePostSubmit now s w
               (falsy_false _ Htitle) (falsy_false _ Htext)).
    cbv zeta.
    destruct (user s) as [usr|];
      destruct (fst (net (POST_posts (newPostData s now)) w));
      cbn; repeat split; try discriminate; repeat constructor.
  - intros postId s w. unfold finalState, events.
    rewrite exec_handleDeletePost. cbv zeta.
    destruct (user s) as [usr|];
      destruct (fst (net (DELETE_posts postId) w));
      cbn; repeat split; try discriminate; repeat constructor.
  - intros usr s w. unfold finalState, events.
    rewrite exec_getPosts. cbn [fst snd].
    split; [discriminate|]. split; [repeat constructor|].
    now destruct (fst (net GET_posts w)).
Qed.

(** *** The error message *)

(** C9 (as amended): a submit that passes the validation always ends
    with [error] null, and a delete whose request succeeds ends with
    [error] null when the list request after it succeeds too (or no user
    is set).  A successful [getPosts] on its own replaces [posts] and
    nothing else: [error], [success] and [isLoading] keep the values
    they had. *)
Theorem error_cleared_by_submit_and_delete_not_by_list :
  (forall (now : string) (s : State) (w : W),
      NewPost.title (newPost s) <> "" ->
      NewPost.text (newPost s) <> "" ->
      error (finalState net (handlePostSubmit now) s w) = None)
  /\ (forall (postId : string) (s : State) (w : W),
         fst (net (DELETE_posts postId) w) = Some tt ->
         user s = None
         \/ fst (net GET_posts (snd (net (DELETE_posts postId) w))) <> None ->
         error (finalState net (handleDeletePost postId) s w) = None)
  /\ (forall (usr : User.t) (s : State) (w : W) (data : list Post.t),
         fst (net GET_posts w) = Some data ->
         finalState net (getPosts usr) s w = withPosts (userPosts usr data) s
         /\ error (finalState net (getPosts usr) s w) = error s
         /\ success (finalState net (getPosts usr) s w) = success s
         /\ isLoading (finalState net (getPosts usr) s w) = isLoading s).
Proof.
  split; [|split].
  - intros now s w Htitle Htext. unfold finalState.
    rewrite (exec_handlePostSubmit now s w
               (falsy_false _ Htitle) (falsy_false _ Htext)).
    cbv zeta. now destruct (user s).
  - intros postId s w Hok Hlist. unfold finalState.
    rewrite exec_handleDeletePost. cbv zeta. rewrite Hok.
    destruct (user s) as [usr|]; [|reflexivity].
    destruct Hlist as [Hnone|Hlist]; [discriminate|].
    cbn [fst].
    destruct (fst (net GET_posts (snd (net (DELETE_posts postId) w))));
      [reflexivity | congruence].
  - intros usr s w data Hok. unfold finalState.
    rewrite exec_getPosts, Hok. cbn. auto.
Qed.

(** *** The success message *)

Lemma perform_success (c : Command) (s : State) (w : W) :
  success (finalState net (perform c) s w) = success s
  \/ success (finalState net (perform c) s w)
     = Some "Your post has been successfully added!"
  \/ success (finalState net (perform c) s w)
     = Some "Your post has been successfully deleted!".
Proof.
  destruct c as [[usr|]| |name value|now|postId]; cbn [perform].
  - unfold finalState. rewrite exec_mount, exec_getPosts. cbn [fst].
    left. now destruct (fst (net GET_posts w)).
  - now left.
  - now left.
  - left. now destruct name.
  - destruct (falsy (NewPost.title (newPost s))) eqn:Htitle;
      [|destruct (falsy (NewPost.text (newPost s))) eqn:Htext].
    + left. unfold finalState, exec.
      rewrite handlePostSubmit_invalid; [reflexivity|].
      now rewrite Htitle.
    + left. unfold finalState, exec.
      rewrite handlePostSubmit_invalid; [reflexivity|].
      rewrite Htext. apply orb_true_r.
    + unfold finalState. rewrite (exec_handlePostSubmit now s w Htitle Htext).
      cbv zeta.
      destruct (user s) as [usr|];
        destruct (fst (net (POST_posts (newPostData s now)) w)); cbn;
        try case_list_answer; cbn; auto.
  - unfold finalState. rewrite exec_handleDeletePost. cbv zeta.
    destruct (user s) as [usr|];
      destruct (fst (net (DELETE_posts postId) w)); cbn;
      try case_list_answer; cbn; auto.
Qed.

Lemma session_cons (c : Command) (cs : list Command) (s : State) (w : W) :
  session net (c :: cs) s w
  = session net cs (finalState net (perform c) s w)
            (snd (fst (exec net (perform c) s w))).
Proof.
  unfold finalState. cbn [session].
  now destruct (exec net (perform c) s w) as [[s' w'] evs].
Qed.

(** C10 (as amended): no command writes null into [success], so once
    set it stays set through every later sequence of commands, whatever
    the network answers.  [getPosts] and the mount leave the message as it
    was.  A submit leaves it as it was when the draft is refused or the
    create request fails, and sets the message of the create when that
    request succeeds; a delete leaves it as it was when the delete request
    fails and sets the message of the delete when it succeeds; the list
    request that follows has no part in it. *)
Theorem success_never_reset :
  (forall (c : Command) (s : State) (w : W),
      success (finalState net (perform c) s w) = success s
      \/ success (finalState net (perform c) s w)
         = Some "Your post has been successfully added!"
      \/ success (finalState net (perform c) s w)
         = Some "Your post has been successfully deleted!")
  /\ (forall (usr : User.t) (s : State) (w : W),
         success (finalState net (getPosts usr) s w) = success s)
  /\ (forall (storedUser : option User.t) (s : State) (w : W),
         success (finalState net (useEffect_mount storedUser) s w)
         = success s)
  /\ (forall (now : string) (s : State) (w : W),
         NewPost.title (newPost s) = "" \/ NewPost.text (newPost s) = "" ->
         success (finalState net (handlePostSubmit now) s w) = success s)
  /\ (forall (now : string) (s : State) (w : W),
         NewPost.title (newPost s) <> "" ->
         NewPost.text (newPost s) <> "" ->
         success (finalState net (handlePostSubmit now) s w)
         = match fst (net (POST_posts (newPostData s now)) w) with
           | Some _ => Some "Your post has been successfully added!"
           | None => success s
           end)
  /\ (forall (postId : string) (s : State) (w : W),
         success (finalState net (handleDeletePost postId) s w)
         = match fst (net (DELETE_posts postId) w) with
           | Some _ => Some "Your post has been successfully deleted!"
           | None => success s
           end)
  /\ (forall (cs : list Command) (s : State) (w : W),
         success s <> None ->
         success (fst (session net cs s w)) <> None).
Proof.
  split; [exact perform_success|].
  assert (Hlist : forall usr s w,
             success (finalState net (getPosts usr) s w) = success s).
  { intros usr s w. unfold finalState. rewrite exec_getPosts. cbn [fst].
    now destruct (fst (net GET_posts w)). }
  split; [exact Hlist|]. split; [|split; [|split; [|split]]].
  - intros [usr|] s w; [|reflexivity].
    unfold finalState. rewrite exec_mount.
    exact (Hlist usr (withUser (Some usr) s) w).
  - intros now s w Hempty. unfold finalState, exec.
    rewrite handlePostSubmit_invalid; [reflexivity|].
    destruct Hempty as [E|E]; rewrite (falsy_true _ E);
      [reflexivity | apply orb_true_r].
  - intros now s w Htitle Htext. unfold finalState.
    rewrite (exec_handlePostSubmit now s w
               (falsy_false _ Htitle) (falsy_false _ Htext)).
    cbv zeta.
    destruct (user s) as [usr|];
      destruct (fst (net (POST_posts (newPostData s now)) w)); cbn;
      try case_list_answer; reflexivity.
  - intros postId s w. unfold finalState.
    rewrite exec_handleDeletePost. cbv zeta.
    destruct (user s) as [usr|];
      destruct (fst (net (DELETE_posts postId) w)); cbn;
      try case_list_answer; reflexivity.
  - induction cs as [|c cs IH]; intros s w Hset; [exact Hset|].
    rewrite session_cons. apply IH.
    destruct (perform_success c s w) as [E|[E|E]]; rewrite E;
      [assumption | discriminate | discriminate].
Qed.

End Running.

(* ================================================================== *)
(** ** The handlers, run against the remote post store *)

Section Store.
Context {dates : DateModel}.

Lemma remote_GET (w : Remote) :
  fst (remote GET_posts w) = None
  \/ fst (remote GET_posts w) = Some (db w).
Proof.
  unfold remote. destruct (outages w) as [|[] rest]; cbn; auto.
Qed.

Lemma remote_db_after_GET (w : Remote) :
  db (snd (remote GET_posts w)) = db w.
Proof.
  unfold remote. now destruct (outages w) as [|[] rest].
Qed.

(** A create request that succeeds was sent for some user, and the
    store has appended the record it returns. *)
Lemma remote_POST_ok (body : NewPostData.t) (w : Remote) (created : Post.t) :
  fst (remote (POST_posts body) w) = Some created ->
  NewPostData.userId body = Some (Post.userId created)
  /\ Post.title created = NewPostData.title body
  /\ Post.text created = NewPostData.text body
  /\ Post.postedAt created = NewPostData.postedAt body
  /\ db (snd (remote (POST_posts body) w)) = db w ++ [created].
Proof.
  unfold remote.
  destruct (outages w) as [|[] rest]; cbn;
    destruct (NewPostData.userId body) as [uid|]; cbn;
    try discriminate; intros [= <-]; cbn; auto.
Qed.

(** A delete request that fails leaves the records as they were. *)
Lemma remote_DELETE_failed (postId : string) (w : Remote) :
  fst (remote (DELETE_posts postId) w) = None ->
  db (snd (remote (DELETE_posts postId) w)) = db w.
Proof.
  unfold remote.
  destruct (outages w) as [|[] rest]; cbn;
    destruct (existsb (hasId postId) (db w)); cbn;
    try discriminate; reflexivity.
Qed.

(** C4: when the create request of a submit succeeds, the record the
    store returned for the draft is in [posts] once the handler has
    completed (listed again from the store or, when that list request
    fails, still in front of the previous list), [isLoading] is false
    and [success] holds the message of the create. *)
Theorem handlePostSubmit_success_shows_post
        (now : string) (s : State) (w : Remote) (created : Post.t) :
  NewPost.title (newPost s) <> "" ->
  NewPost.text (newPost s) <> "" ->
  fst (remote (POST_posts (newPostData s now)) w) = Some created ->
  In created (posts (finalState remote (handlePostSubmit now) s w))
  /\ Post.title created = NewPost.title (newPost s)
  /\ Post.text created = NewPost.text (newPost s)
  /\ isLoading (finalState remote (handlePostSubmit now) s w) = false
  /\ success (finalState remote (handlePostSubmit now) s w)
     = Some "Your post has been successfully added!".
Proof.
  intros Htitle Htext Hok.
  destruct (remote_POST_ok _ _ _ Hok) as (Huid & Ht & Hx & _ & Hdb).
  unfold finalState.
  rewrite (exec_handlePostSubmit _ remote now s w
             (falsy_false _ Htitle) (falsy_false _ Htext)).
  cbv zeta. rewrite Hok.
  unfold newPostData in Huid, Ht, Hx. cbn in Huid, Ht, Hx.
  destruct (user s) as [usr|] eqn:Hu; cbn in Huid; [|discriminate].
  injection Huid as Huid.
  set (w1 := snd (remote (POST_posts (newPostData s now)) w)) in *.
  split; [|now repeat split; destruct (fst (remote GET_posts w1))].
  destruct (remote_GET w1) as [E|E]; rewrite E; cbn.
  - now left.
  - apply userPosts_In. rewrite Hdb. split; [|now symmetry].
    apply in_or_app. right. now left.
Qed.

(** C6 (as amended): when the delete request fails, the handler itself
    sets no error or success message and does not touch [posts]; it still
    sends the list request and ends with [isLoading] false.  The store
    holds the records it held before.  When the list request is answered,
    [posts] is the user's part of them and [error] is what it was; when
    the list request fails as well, [posts] is the list shown before and
    [error] is the message of the failed load. *)
Theorem handleDeletePost_failure_relists
        (postId : string) (s : State) (w : Remote) (usr : User.t) :
  user s = Some usr ->
  fst (remote (DELETE_posts postId) w) = None ->
  requests remote (handleDeletePost postId) s w
  = [DELETE_posts postId; GET_posts]
  /\ Forall (fun e => shown e = withIsLoading true s)
            (events remote (handleDeletePost postId) s w)
  /\ db (finalWorld remote (handleDeletePost postId) s w) = db w
  /\ isLoading (finalState remote (handleDeletePost postId) s w) = false
  /\ success (finalState remote (handleDeletePost postId) s w) = success s
  /\ match fst (remote GET_posts (snd (remote (DELETE_posts postId) w))) with
     | Some data =>
         data = db w
         /\ posts (finalState remote (handleDeletePost postId) s w)
            = userPosts usr (db w)
         /\ error (finalState remote (handleDeletePost postId) s w)
            = error s
     | None =>
         posts (finalState remote (handleDeletePost postId) s w) = posts s
         /\ error (finalState remote (handleDeletePost postId) s w)
            = Some "Failed to load posts."
     end.
Proof.
  intros Hu Hfail.
  pose proof (remote_DELETE_failed _ _ Hfail) as Hdb.
  unfold finalState, finalWorld, requests, events.
  rewrite exec_handleDeletePost. cbv zeta. rewrite Hu, Hfail.
  set (w1 := snd (remote (DELETE_posts postId) w)) in *.
  cbn [fst snd map request].
  split; [reflexivity|]. split; [repeat constructor|].
  split; [now rewrite remote_db_after_GET|].
  destruct (remote_GET w1) as [E|E]; rewrite E; cbn; rewrite ?Hdb; auto.
Qed.

End Store.

(* ================================================================== *)
(** ** The theorems at concrete pages and stores *)

Section Instances.
Import Example.
#[local] Existing Instance ISO.dates.

(** The scenario of the specification: of a post of [u1] and a post of
    [u2], the page of [u1] shows the first only. *)
Example mount_shows_own_posts : posts loaded = [january1].
Proof. reflexivity. Qed.

Lemma orderPosts_descending_stable_witness :
  Forall (fun p => timestamp p <> NaN) [january1; january2]
  /\ (Permutation [january1; january2] (orderPosts [january1; january2])
      /\ StronglySorted (fun a b => notOlder a b = true)
                        (orderPosts [january1; january2])
      /\ (NoDup (map timestamp [january1; january2]) ->
          StronglySorted (fun a b => newer a b = true)
                         (orderPosts [january1; january2]))
      /\ (forall t, filter (postedAtTime t) (orderPosts [january1; january2])
                    = filter (postedAtTime t) [january1; january2])).
Proof.
  assert (H : Forall (fun p => timestamp p <> NaN) [january1; january2]).
  { repeat constructor; vm_compute; discriminate. }
  split; [exact H|].
  exact (orderPosts_descending_stable [january1; january2] H).
Defined.

(** A post whose [postedAt] is no date compares as equal to every other
    post: with two such posts between them, the more recent of two dated
    posts stays behind the older one.  And however the four posts are
    arranged, the arrangement does not descend by timestamp. *)
Lemma orderPosts_undated_not_descending :
  orderPosts [january1; undated; unstamped; january2]
  = [january1; undated; unstamped; january2]
  /\ timestamp january1 = Num 1704067200000
  /\ timestamp january2 = Num 1704153600000
  /\ ~ StronglySorted (fun a b => notOlder a b = true)
                      (orderPosts [january1; undated; unstamped; january2])
  /\ (forall r,
         Permutation [january1; undated; unstamped; january2] r ->
         ~ StronglySorted (fun a b => notOlder a b = true) r).
Proof.
  assert (Hnone : forall r,
             Permutation [january1; undated; unstamped; january2] r ->
             ~ StronglySorted (fun a b => notOlder a b = true) r).
  { intros r Hperm Hs.
    assert (Hlen : (2 <= List.length r)%nat).
    { rewrite <- (Permutation_length Hperm). cbn. lia. }
    pose proof (descending_dated r Hs Hlen) as Hall.
    apply (Permutation_Forall (Permutation_sym Hperm)) in Hall.
    inversion Hall as [|? ? _ Hrest]; subst.
    inversion Hrest as [|? ? Hbad _]; subst.
    now apply Hbad. }
  repeat split; try reflexivity; [|exact Hnone].
  apply Hnone. apply Array_sort_perm.
Qed.

Lemma handlePostSubmit_empty_field_witness :
  (NewPost.title (newPost (drafting "" "hi" loaded)) = ""
   \/ NewPost.text (newPost (drafting "" "hi" loaded)) = "")
  /\ requests remote (handlePostSubmit january3)
              (drafting "" "hi" loaded) reachable = []
  /\ error (finalState remote (handlePostSubmit january3)
                       (drafting "" "hi" loaded) reachable)
     = Some "Both title and content are required."
  /\ isLoading (finalState remote (handlePostSubmit january3)
                           (drafting "" "hi" loaded) reachable)
     = isLoading (drafting "" "hi" loaded)
  /\ posts (finalState remote (handlePostSubmit january3)
                       (drafting "" "hi" loaded) reachable)
     = posts (drafting "" "hi" loaded).
Proof.
  split; [left; reflexivity|].
  apply (handlePostSubmit_empty_field_short_circuit
           _ remote january3 (drafting "" "hi" loaded) reachable).
  left; reflexivity.
Defined.

(** A title of blanks is empty once trimmed, and yet the draft is sent
    to the store and shown. *)
Lemma handlePostSubmit_blank_title_is_sent :
  trim (NewPost.title (newPost (drafting "   " "hi" loaded))) = ""
  /\ requests remote (handlePostSubmit january3)
              (drafting "   " "hi" loaded) reachable
     = [POST_posts (NewPostData.mk (Some "u1") "   " "hi" january3);
        GET_posts]
  /\ Exists (fun e => isLoading (shown e) = true)
            (events remote (handlePostSubmit january3)
                    (drafting "   " "hi" loaded) reachable)
  /\ error (finalState remote (handlePostSubmit january3)
                       (drafting "   " "hi" loaded) reachable) = None
  /\ posts (finalState remote (handlePostSubmit january3)
                       (drafting "   " "hi" loaded) reachable)
     = [Post.mk "n3" "u1" january3 "   " "hi"; january1].
Proof.
  repeat split; try reflexivity.
  apply Exists_cons_hd. reflexivity.
Qed.

Lemma handlePostSubmit_success_shows_post_witness :
  NewPost.title (newPost (drafting "Title" "Text" loaded)) <> ""
  /\ NewPost.text (newPost (drafting "Title" "Text" loaded)) <> ""
  /\ fst (remote (POST_posts (newPostData (drafting "Title" "Text" loaded)
                                          january3))
                 reachable)
     = Some (Post.mk "n3" "u1" january3 "Title" "Text")
  /\ In (Post.mk "n3" "u1" january3 "Title" "Text")
        (posts (finalState remote (handlePostSubmit january3)
                           (drafting "Title" "Text" loaded) reachable))
  /\ isLoading (finalState remote (handlePostSubmit january3)
                           (drafting "Title" "Text" loaded) reachable)
     = false
  /\ success (finalState remote (handlePostSubmit january3)
                         (drafting "Title" "Text" loaded) reachable)
     = Some "Your post has been successfully added!".
Proof.
  assert (Htitle : NewPost.title (newPost (drafting "Title" "Text" loaded))
                   <> "") by discriminate.
  assert (Htext : NewPost.text (newPost (drafting "Title" "Text" loaded))
                  <> "") by discriminate.
  pose proof (handlePostSubmit_success_shows_post
                january3 (drafting "Title" "Text" loaded) reachable
                (Post.mk "n3" "u1" january3 "Title" "Text")
                Htitle Htext eq_refl) as (Hin & _ & _ & Hload & Hsucc).
  repeat split; assumption || reflexivity.
Defined.

Lemma handlePostSubmit_always_relists_witness :
  user (drafting "Title" "Text" loaded) = Some alice
  /\ NewPost.title (newPost (drafting "Title" "Text" loaded)) <> ""
  /\ NewPost.text (newPost (drafting "Title" "Text" loaded)) <> ""
  /\ requests remote (handlePostSubmit january3)
              (drafting "Title" "Text" loaded) unreachable
     = [POST_posts (newPostData (drafting "Title" "Text" loaded) january3);
        GET_posts]
  /\ isLoading (finalState remote (handlePostSubmit january3)
                           (drafting "Title" "Text" loaded) unreachable)
     = false
  /\ newPost (finalState remote (handlePostSubmit january3)
                         (drafting "Title" "Text" loaded) unreachable)
     = NewPost.empty.
Proof.
  assert (Htitle : NewPost.title (newPost (drafting "Title" "Text" loaded))
                   <> "") by discriminate.
  assert (Htext : NewPost.text (newPost (drafting "Title" "Text" loaded))
                  <> "") by discriminate.
  pose proof (handlePostSubmit_always_relists
                _ remote january3 (drafting "Title" "Text" loaded)
                unreachable alice eq_refl Htitle Htext)
    as (Hreq & Hload & Hdraft & _).
  repeat split; assumption || reflexivity.
Defined.

Lemma handleDeletePost_failure_relists_witness :
  user loaded = Some alice
  /\ fst (remote (DELETE_posts "p9") reachable) = None
  /\ requests remote (handleDeletePost "p9") loaded reachable
     = [DELETE_posts "p9"; GET_posts]
  /\ db (finalWorld remote (handleDeletePost "p9") loaded reachable)
     = db reachable
  /\ isLoading (finalState remote (handleDeletePost "p9") loaded reachable)
     = false
  /\ posts (finalState remote (handleDeletePost "p9") loaded reachable)
     = [january1]
  /\ error (finalState remote (handleDeletePost "p9") loaded reachable)
     = None.
Proof.
  pose proof (handleDeletePost_failure_relists
                "p9" loaded reachable alice eq_refl eq_refl)
    as (Hreq & _ & Hdb & Hload & _ & _ & Hposts & Herr).
  repeat split; assumption || reflexivity.
Defined.

Lemma getPosts_failure_keeps_posts_witness :
  fst (remote GET_posts unreachable) = None
  /\ error (finalState remote (getPosts alice) mounted unreachable)
     = Some "Failed to load posts."
  /\ posts (finalState remote (getPosts alice) mounted unreachable)
     = posts mounted.
Proof.
  pose proof (getPosts_failure_keeps_posts
                _ remote alice mounted unreachable eq_refl)
    as (_ & Herr & Hposts & _).
  repeat split; assumption || reflexivity.
Defined.

(** With posts on the page, a list request that fails leaves them there:
    on its own, and as the second request of a delete. *)
Lemma getPosts_failure_posts_not_empty :
  fst (remote GET_posts unreachable) = None
  /\ error (finalState remote (getPosts alice) loaded unreachable)
     = Some "Failed to load posts."
  /\ posts (finalState remote (getPosts alice) loaded unreachable)
     = [january1]
  /\ posts (finalState remote (getPosts alice) loaded unreachable) <> []
  /\ requests remote (handleDeletePost "p1") loaded unreachable
     = [DELETE_posts "p1"; GET_posts]
  /\ error (finalState remote (handleDeletePost "p1") loaded unreachable)
     = Some "Failed to load posts."
  /\ posts (finalState remote (handleDeletePost "p1") loaded unreachable)
     <> [].
Proof.
  repeat split; try reflexivity; vm_compute; discriminate.
Qed.

Lemma isLoading_set_by_submit_and_delete_only_witness :
  (NewPost.title (newPost (drafting "Title" "Text" loaded)) <> ""
   /\ NewPost.text (newPost (drafting "Title" "Text" loaded)) <> ""
   /\ Forall (fun e => isLoading (shown e) = true)
             (events remote (handlePostSubmit january3)
                     (drafting "Title" "Text" loaded) reachable)
   /\ isLoading (finalState remote (handlePostSubmit january3)
                            (drafting "Title" "Text" loaded) reachable)
      = false)
  /\ (Forall (fun e => isLoading (shown e) = true)
             (events remote (handleDeletePost "p1") loaded reachable)
      /\ isLoading (finalState remote (handleDeletePost "p1") loaded reachable)
         = false)
  /\ (Forall (fun e => isLoading (shown e) = isLoading mounted)
             (events remote (getPosts alice) mounted reachable)
      /\ isLoading (finalState remote (getPosts alice) mounted reachable)
         = isLoading mounted).
Proof.
  assert (Htitle : NewPost.title (newPost (drafting "Title" "Text" loaded))
                   <> "") by discriminate.
  assert (Htext : NewPost.text (newPost (drafting "Title" "Text" loaded))
                  <> "") by discriminate.
  destruct (isLoading_set_by_submit_and_delete_only _ remote)
    as (Hsubmit & Hdelete & Hlist).
  destruct (Hsubmit january3 (drafting "Title" "Text" loaded) reachable
                    Htitle Htext) as (_ & Hs1 & Hs2).
  destruct (Hdelete "p1" loaded reachable) as (_ & Hd1 & Hd2).
  destruct (Hlist alice mounted reachable) as (_ & Hl1 & Hl2).
  repeat split; assumption.
Defined.

(** The list request sent on mount is in flight with [isLoading] false,
    and [isLoading] is false afterwards. *)
Lemma getPosts_does_not_enter_loading :
  events remote (useEffect_mount (Some alice)) initialState reachable
  = [mkEvent mounted GET_posts]
  /\ ~ Exists (fun e => isLoading (shown e) = true)
              (events remote (useEffect_mount (Some alice))
                      initialState reachable)
  /\ isLoading (finalState remote (useEffect_mount (Some alice))
                           initialState reachable) = false.
Proof.
  repeat split.
  intros H. vm_compute in H.
  inversion H as [? ? Hhd|? ? Htl]; subst; [discriminate | inversion Htl].
Qed.

Lemma error_cleared_by_submit_and_delete_not_by_list_witness :
  (NewPost.title (newPost (drafting "Title" "Text" refused)) <> ""
   /\ NewPost.text (newPost (drafting "Title" "Text" refused)) <> ""
   /\ error (drafting "Title" "Text" refused)
      = Some "Both title and content are required."
   /\ error (finalState remote (handlePostSubmit january3)
                        (drafting "Title" "Text" refused) reachable) = None)
  /\ (fst (remote (DELETE_posts "p1") reachable) = Some tt
      /\ error (finalState remote (handleDeletePost "p1") refused reachable)
         = None)
  /\ (fst (remote GET_posts reachable) = Some [january1; foreign]
      /\ error (finalState remote (getPosts alice) refused reachable)
         = error refused).
Proof.
  assert (Htitle : NewPost.title (newPost (drafting "Title" "Text" refused))
                   <> "") by discriminate.
  assert (Htext : NewPost.text (newPost (drafting "Title" "Text" refused))
                  <> "") by discriminate.
  destruct (error_cleared_by_submit_and_delete_not_by_list _ remote)
    as (Hsubmit & Hdelete & Hlist).
  pose proof (Hsubmit january3 (drafting "Title" "Text" refused) reachable
                      Htitle Htext) as Hs.
  assert (Hrelist :
            user refused = None
            \/ fst (remote GET_posts
                           (snd (remote (DELETE_posts "p1") reachable)))
               <> None) by (right; discriminate).
  pose proof (Hdelete "p1" refused reachable eq_refl Hrelist) as Hd.
  destruct (Hlist alice refused reachable [january1; foreign] eq_refl)
    as (_ & Hl & _).
  repeat split; assumption || reflexivity.
Defined.

(** The message of a refused draft is still there after the posts have
    been listed with success, on their own and after a delete that found
    nothing to delete; the same goes for the success message of a
    published post. *)
Lemma successful_list_keeps_error :
  error refused = Some "Both title and content are required."
  /\ fst (remote GET_posts reachable) = Some [january1; foreign]
  /\ error (finalState remote (getPosts alice) refused reachable)
     = Some "Both title and content are required."
  /\ requests remote (handleDeletePost "p9") refused reachable
     = [DELETE_posts "p9"; GET_posts]
  /\ error (finalState remote (handleDeletePost "p9") refused reachable)
     = Some "Both title and content are required."
  /\ success (finalState remote (getPosts alice) published extended)
     = Some "Your post has been successfully added!".
Proof.
  repeat split.
Qed.

Lemma success_never_reset_witness :
  success published <> None
  /\ success (fst (session remote [DeletePost "p9"; ToggleModal]
                           published extended)) <> None.
Proof.
  assert (Hset : success published <> None) by discriminate.
  split; [exact Hset|].
  destruct (success_never_reset _ remote) as (_ & _ & _ & _ & _ & _ & Hkept).
  exact (Hkept [DeletePost "p9"; ToggleModal] published extended Hset).
Defined.

(** The message of a create is replaced by the message of a later
    delete. *)
Lemma success_replaced_by_later_delete :
  success published = Some "Your post has been successfully added!"
  /\ success (finalState remote (handleDeletePost "p1") published extended)
     = Some "Your post has been successfully deleted!"
  /\ success (finalState remote (handleDeletePost "p1") published extended)
     <> success published.
Proof.
  repeat split. vm_compute. discriminate.
Qed.

End Instances.

(* ================================================================== *)
(** ** More on the ordering step *)

Section OrderingAgain.
Context {dates : DateModel}.

Lemma filter_all (A : Type) (f : A -> bool) (l : list A) :
  Forall (fun x => f x = true) l -> filter f l = l.
Proof.
  induction 1 as [|x l Hx _ IH]; cbn; [reflexivity|].
  now rewrite Hx, IH.
Qed.

(** Sorting a list that already descends changes nothing. *)
Lemma orderPosts_descending_fixed (l : list Post.t) :
  Forall (fun p => timestamp p <> NaN) l ->
  StronglySorted (fun a b => notOlder a b = true) l ->
  orderPosts l = l.
Proof.
  induction l as [|x l IH]; intros Hd Hs; [reflexivity|].
  inversion Hd as [|? ? Hx Hl]; subst.
  inversion Hs as [|? ? Hs' Hxl]; subst.
  change (orderPosts (x :: l))
    with (Array_insert byPostedAtDesc x (orderPosts l)).
  rewrite (IH Hl Hs').
  destruct l as [|y l]; [reflexivity|]. cbn.
  inversion Hl as [|? ? Hy _]; subst.
  inversion Hxl as [|? ? Hxy _]; subst.
  destruct (dated_inv _ Hx) as [tx Ex].
  destruct (dated_inv _ Hy) as [ty Ey].
  rewrite (byPostedAtDesc_pos _ _ _ _ Ex Ey).
  apply (notOlder_spec _ _ _ _ Ex Ey) in Hxy.
  destruct (Z.ltb_spec tx ty); [lia | reflexivity].
Qed.

(** X6: when the posts of the user among [data] all have a date,
    filtering and ordering the list that [getPosts] computed returns that
    list: the step is idempotent. *)
Theorem userPosts_idempotent (usr : User.t) (data : list Post.t) :
  Forall (fun p => Post.userId p = User.id usr -> timestamp p <> NaN) data ->
  userPosts usr (userPosts usr data) = userPosts usr data.
Proof.
  intros Hdated.
  assert (Hfiltered :
            Forall (fun p => timestamp p <> NaN)
                   (filter (fun post =>
                              String.eqb (Post.userId post) (User.id usr))
                           data)).
  { apply Forall_forall. intros p Hin. apply filter_In in Hin.
    destruct Hin as [Hin Heq]. apply String.eqb_eq in Heq.
    rewrite Forall_forall in Hdated. now apply Hdated. }
  unfold userPosts at 1. rewrite filter_all.
  - apply orderPosts_descending_fixed.
    + now apply orderPosts_dated.
    + now apply orderPosts_sorted.
  - apply Forall_forall. intros p Hin.
    apply (Permutation_in _ (Permutation_sym (orderPosts_perm _))) in Hin.
    now apply filter_In in Hin.
Qed.

(** The head of a descending list is the one post that is newer than
    all the others. *)
Lemma descending_head (created : Post.t) (r : list Post.t) :
  StronglySorted (fun a b => notOlder a b = true) r ->
  In created r ->
  Forall (fun p => p = created \/ newer created p = true) r ->
  hd_error r = Some created.
Proof.
  intros Hs Hin Hall. destruct r as [|h r]; [contradiction|]. cbn.
  inversion Hall as [|? ? Hh _]; subst.
  destruct Hh as [->|Hnewer]; [reflexivity|].
  inversion Hs as [|? ? _ Hhr]; subst.
  destruct Hin as [->|Hin]; [reflexivity|].
  rewrite Forall_forall in Hhr. specialize (Hhr created Hin).
  unfold notOlder in Hhr. unfold newer in Hnewer.
  destruct (timestamp h), (timestamp created); cbn in *; try discriminate.
  apply Z.leb_le in Hhr. apply Z.ltb_lt in Hnewer. lia.
Qed.

End OrderingAgain.

(* ================================================================== *)
(** ** More on the handlers and an arbitrary network *)

Section RunningAgain.
Context {dates : DateModel}.
Variable W : Type.
Variable net : Network W.

(** X4: typing the title and the text, in either order, fills the draft
    and sends nothing; the submit that follows sends exactly what was
    typed, with the id of the user and the time of the submit, and then
    lists the posts. *)
Theorem typed_draft_is_posted
        (title text now : string) (s : State) (w : W) (usr : User.t) :
  user s = Some usr ->
  title <> "" ->
  text <> "" ->
  session net [InputChange name_title title; InputChange name_text text] s w
  = (withNewPost (NewPost.mk title text) s, w)
  /\ session net [InputChange name_text text; InputChange name_title title] s w
     = (withNewPost (NewPost.mk title text) s, w)
  /\ requests net (handlePostSubmit now)
              (withNewPost (NewPost.mk title text) s) w
     = [POST_posts (NewPostData.mk (Some (User.id usr)) title text now);
        GET_posts].
Proof.
  intros Hu Htitle Htext. split; [reflexivity|]. split; [reflexivity|].
  unfold requests, events.
  rewrite (exec_handlePostSubmit
             _ net now (withNewPost (NewPost.mk title text) s) w
             (falsy_false _ Htitle) (falsy_false _ Htext)).
  cbv zeta. cbn [user withNewPost]. rewrite Hu. cbn.
  unfold newPostData. cbn. now rewrite Hu.
Qed.

Lemma perform_isLoading (c : Command) (s : State) (w : W) :
  isLoading s = false ->
  isLoading (finalState net (perform c) s w) = false.
Proof.
  intros Hidle.
  destruct c as [[usr|]| |name value|now|postId]; cbn [perform].
  - unfold finalState. rewrite exec_mount, exec_getPosts. cbn [fst].
    now destruct (fst (net GET_posts w)).
  - assumption.
  - assumption.
  - now destruct name.
  - destruct (falsy (NewPost.title (newPost s))) eqn:Htitle;
      [|destruct (falsy (NewPost.text (newPost s))) eqn:Htext].
    + unfold finalState, exec.
      rewrite handlePostSubmit_invalid; [assumption|].
      now rewrite Htitle.
    + unfold finalState, exec.
      rewrite handlePostSubmit_invalid; [assumption|].
      rewrite Htext. apply orb_true_r.
    + unfold finalState. rewrite (exec_handlePostSubmit _ net now s w Htitle Htext).
      cbv zeta. now destruct (user s).
  - unfold finalState. rewrite exec_handleDeletePost. cbv zeta.
    now destruct (user s).
Qed.

(** X7: a page that is not loading is not loading after any sequence of
    commands, whatever the network answers: no handler returns with
    [isLoading] left true. *)
Theorem isLoading_false_at_rest (cs : list Command) (s : State) (w : W) :
  isLoading s = false ->
  isLoading (fst (session net cs s w)) = false.
Proof.
  revert s w. induction cs as [|c cs IH]; intros s w Hidle; [exact Hidle|].
  rewrite session_cons. apply IH. now apply perform_isLoading.
Qed.

End RunningAgain.

(* ================================================================== *)
(** ** More on the handlers and the remote post store *)

Section StoreAgain.
Context {dates : DateModel}.

Lemma userPosts_owned (usr : User.t) (data : list Post.t) :
  Forall (fun post => Post.userId post = User.id usr) (userPosts usr data).
Proof.
  apply Forall_forall. intros post Hin. now apply userPosts_In in Hin.
Qed.

Lemma filter_owned (usr : User.t) (f : Post.t -> bool) (l : list Post.t) :
  Forall (fun post => Post.userId post = User.id usr) l ->
  Forall (fun post => Post.userId post = User.id usr) (filter f l).
Proof.
  rewrite !Forall_forall. intros Hall post Hin.
  apply filter_In in Hin. now apply Hall.
Qed.

Lemma remote_DELETE_ok (postId : string) (w : Remote) :
  fst (remote (DELETE_posts postId) w) = Some tt ->
  db (snd (remote (DELETE_posts postId) w))
  = filter (fun p => negb (hasId postId p)) (db w).
Proof.
  unfold remote.
  destruct (outages w) as [|[] rest]; cbn;
    destruct (existsb (hasId postId) (db w)); cbn;
    try discriminate; reflexivity.
Qed.

Lemma removed_id_absent (postId : string) (l : list Post.t) :
  ~ In postId
      (map Post.id
           (filter (fun post => negb (String.eqb (Post.id post) postId)) l)).
Proof.
  intros Hin. apply in_map_iff in Hin. destruct Hin as (p & Hid & Hin).
  apply filter_In in Hin. destruct Hin as [_ Hkept].
  rewrite Hid, String.eqb_refl in Hkept. discriminate.
Qed.

Lemma perform_owned (c : Command) (s : State) (w : Remote) (usr : User.t) :
  afterMount c = true ->
  user s = Some usr ->
  Forall (fun post => Post.userId post = User.id usr) (posts s) ->
  user (finalState remote (perform c) s w) = Some usr
  /\ Forall (fun post => Post.userId post = User.id usr)
            (posts (finalState remote (perform c) s w)).
Proof.
  intros Hc Hu Hown.
  destruct c as [stored| |name value|now|postId]; cbn [perform];
    try discriminate.
  - now split.
  - destruct name; now split.
  - destruct (falsy (NewPost.title (newPost s))) eqn:Htitle;
      [|destruct (falsy (NewPost.text (newPost s))) eqn:Htext].
    + unfold finalState, exec.
      rewrite handlePostSubmit_invalid; [now split|]. now rewrite Htitle.
    + unfold finalState, exec.
      rewrite handlePostSubmit_invalid; [now split|].
      rewrite Htext. apply orb_true_r.
    + unfold finalState.
      rewrite (exec_handlePostSubmit _ remote now s w Htitle Htext).
      cbv zeta. rewrite Hu.
      destruct (fst (remote (POST_posts (newPostData s now)) w))
        as [created|] eqn:Hpost.
      * destruct (remote_POST_ok _ _ _ Hpost) as (Huid & _).
        unfold newPostData in Huid. cbn in Huid. rewrite Hu in Huid.
        injection Huid as Huid.
        cbn [fst]. case_list_answer; cbn; split; auto using userPosts_owned.
      * cbn [fst]. case_list_answer; cbn; split; auto using userPosts_owned.
  - unfold finalState. rewrite exec_handleDeletePost. cbv zeta. rewrite Hu.
    destruct (fst (remote (DELETE_posts postId) w));
      cbn [fst]; case_list_answer; cbn; split;
      auto using userPosts_owned, filter_owned.
Qed.

Lemma session_owned (cs : list Command) (s : State) (w : Remote)
      (usr : User.t) :
  forallb afterMount cs = true ->
  user s = Some usr ->
  Forall (fun post => Post.userId post = User.id usr) (posts s) ->
  user (fst (session remote cs s w)) = Some usr
  /\ Forall (fun post => Post.userId post = User.id usr)
            (posts (fst (session remote cs s w))).
Proof.
  revert s w. induction cs as [|c cs IH]; intros s w Hcs Hu Hown;
    [now split|].
  cbn in Hcs. apply andb_true_iff in Hcs. destruct Hcs as [Hc Hcs].
  rewrite session_cons.
  destruct (perform_owned c s w usr Hc Hu Hown) as [Hu' Hown'].
  now apply IH.
Qed.

(** X1: on a page mounted for a user, after any sequence of typing,
    toggling, submits and deletes run against the store, whichever of the
    requests fail on the way, the user is the same and every post in
    [posts] has the id of that user as its [userId]. *)
Theorem posts_owned_throughout
        (usr : User.t) (cs : list Command) (w : Remote) :
  forallb afterMount cs = true ->
  user (fst (session remote (Mount (Some usr) :: cs) initialState w))
  = Some usr
  /\ Forall (fun post => Post.userId post = User.id usr)
            (posts (fst (session remote (Mount (Some usr) :: cs)
                                 initialState w))).
Proof.
  intros Hcs. rewrite session_cons. apply session_owned; [assumption| |].
  - cbn [perform]. unfold finalState. rewrite exec_mount, exec_getPosts.
    cbn [fst]. now destruct (fst (remote GET_posts w)).
  - cbn [perform]. unfold finalState. rewrite exec_mount, exec_getPosts.
    cbn [fst]. destruct (fst (remote GET_posts w)); cbn.
    + apply userPosts_owned.
    + constructor.
Qed.

(** X2: when the list request that ends a submit or a delete is
    answered, [posts] is the ordered list of the user's records in the
    store as the store is then, whether or not the create or delete
    request before it succeeded. *)
Theorem posts_mirror_store_after_relist :
  (forall (now : string) (s : State) (w : Remote) (usr : User.t),
      user s = Some usr ->
      NewPost.title (newPost s) <> "" ->
      NewPost.text (newPost s) <> "" ->
      fst (remote GET_posts (snd (remote (POST_posts (newPostData s now)) w)))
      <> None ->
      posts (finalState remote (handlePostSubmit now) s w)
      = userPosts usr (db (finalWorld remote (handlePostSubmit now) s w)))
  /\ (forall (postId : string) (s : State) (w : Remote) (usr : User.t),
         user s = Some usr ->
         fst (remote GET_posts (snd (remote (DELETE_posts postId) w)))
         <> None ->
         posts (finalState remote (handleDeletePost postId) s w)
         = userPosts usr (db (finalWorld remote (handleDeletePost postId) s w))).
Proof.
  split.
  - intros now s w usr Hu Htitle Htext Hlist. unfold finalState, finalWorld.
    rewrite (exec_handlePostSubmit _ remote now s w
               (falsy_false _ Htitle) (falsy_false _ Htext)).
    cbv zeta. rewrite Hu. cbn [fst snd].
    set (w1 := snd (remote (POST_posts (newPostData s now)) w)) in *.
    rewrite remote_db_after_GET.
    destruct (remote_GET w1) as [E|E]; [congruence|]. now rewrite E.
  - intros postId s w usr Hu Hlist. unfold finalState, finalWorld.
    rewrite exec_handleDeletePost. cbv zeta. rewrite Hu. cbn [fst snd].
    set (w1 := snd (remote (DELETE_posts postId) w)) in *.
    rewrite remote_db_after_GET.
    destruct (remote_GET w1) as [E|E]; [congruence|]. now rewrite E.
Qed.

(** X3: when the delete request succeeds, no post with the deleted id is
    left in [posts] once the handler has completed, whether the list
    request after it is answered or not, nor in the store, and [success]
    holds the message of the delete.  The handler does not look the id up
    in [posts] before it sends the request. *)
Theorem handleDeletePost_success_removes
        (postId : string) (s : State) (w : Remote) :
  fst (remote (DELETE_posts postId) w) = Some tt ->
  hd_error (requests remote (handleDeletePost postId) s w)
  = Some (DELETE_posts postId)
  /\ ~ In postId
        (map Post.id (posts (finalState remote (handleDeletePost postId) s w)))
  /\ ~ In postId
        (map Post.id (db (finalWorld remote (handleDeletePost postId) s w)))
  /\ success (finalState remote (handleDeletePost postId) s w)
     = Some "Your post has been successfully deleted!".
Proof.
  intros Hok. pose proof (remote_DELETE_ok _ _ Hok) as Hdb.
  unfold finalState, finalWorld, requests, events.
  rewrite exec_handleDeletePost. cbv zeta. rewrite Hok.
  set (w1 := snd (remote (DELETE_posts postId) w)) in *.
  destruct (user s) as [usr|]; cbn [fst snd map hd_error request].
  - rewrite remote_db_after_GET, Hdb.
    split; [reflexivity|].
    split; [|split; [apply removed_id_absent
                    | now destruct (fst (remote GET_posts w1))]].
    destruct (remote_GET w1) as [E|E]; rewrite E; cbn.
    + apply removed_id_absent.
    + rewrite Hdb. intros Hin. apply in_map_iff in Hin.
      destruct Hin as (p & Hid & Hin). apply userPosts_In in Hin.
      destruct Hin as [Hin _].
      apply (removed_id_absent postId (db w)).
      apply in_map_iff. now exists p.
  - rewrite Hdb. cbn.
    repeat split; auto using removed_id_absent.
Qed.

(** X5: when the create request succeeds and the time of the submit is a
    date later than the dates of all records of the user in the store,
    the created post is the first of [posts] once the handler has
    completed. *)
Theorem newest_post_on_top
        (now : string) (s : State) (w : Remote) (usr : User.t)
        (created : Post.t) :
  user s = Some usr ->
  NewPost.title (newPost s) <> "" ->
  NewPost.text (newPost s) <> "" ->
  fst (remote (POST_posts (newPostData s now)) w) = Some created ->
  Date_getTime now <> NaN ->
  Forall (fun p => Post.userId p = User.id usr ->
                   Number_gtb (Date_getTime now) (timestamp p) = true)
         (db w) ->
  hd_error (posts (finalState remote (handlePostSubmit now) s w))
  = Some created.
Proof.
  intros Hu Htitle Htext Hok Hnow Holder.
  destruct (remote_POST_ok _ _ _ Hok) as (Huid & _ & _ & Hat & Hdb).
  unfold newPostData in Huid, Hat. cbn in Huid, Hat.
  rewrite Hu in Huid. injection Huid as Huid.
  assert (Hstamp : timestamp created = Date_getTime now).
  { unfold timestamp. now rewrite Hat. }
  unfold finalState.
  rewrite (exec_handlePostSubmit _ remote now s w
             (falsy_false _ Htitle) (falsy_false _ Htext)).
  cbv zeta. rewrite Hu, Hok.
  set (w1 := snd (remote (POST_posts (newPostData s now)) w)) in *.
  destruct (remote_GET w1) as [E|E]; rewrite E; cbn; [reflexivity|].
  rewrite Hdb. rewrite Forall_forall in Holder.
  apply descending_head.
  - apply orderPosts_sorted. apply Forall_forall. intros p Hin.
    apply filter_In in Hin. destruct Hin as [Hin Hown].
    apply String.eqb_eq in Hown.
    apply in_app_or in Hin. destruct Hin as [Hin|[<-|[]]].
    + specialize (Holder p Hin Hown).
      destruct (Date_getTime now), (timestamp p); cbn in Holder;
        congruence.
    + now rewrite Hstamp.
  - apply userPosts_In. split; [|now symmetry].
    apply in_or_app. right. now left.
  - apply Forall_forall. intros p Hin. apply userPosts_In in Hin.
    destruct Hin as [Hin Hown].
    apply in_app_or in Hin. destruct Hin as [Hin|[<-|[]]].
    + right. unfold newer. rewrite Hstamp. now apply Holder.
    + now left.
Qed.

End StoreAgain.

(* ================================================================== *)
(** ** The stored user: login, mount and logout *)

Section Storage.
Context {json : JSONModel} {dates : DateModel}.

(** X8: when the stored user is missing, is the empty string or cannot be
    parsed, the effect of [Profile] leaves for ["/"]; it sets no user,
    sends no request and leaves the stored item as it is. *)
Theorem Profile_useEffect_without_user (b : Browser) :
  loggedInUser b = None
  \/ loggedInUser b = Some ""
  \/ (exists raw, loggedInUser b = Some raw /\ JSON_parse raw = None) ->
  location (fst (Profile_useEffect b)) = "/"
  /\ loggedInUser (fst (Profile_useEffect b)) = loggedInUser b
  /\ (forall (W : Type) (net : Network W) (s : State) (w : W),
         exec net (snd (Profile_useEffect b)) s w = (s, w, [])).
Proof.
  unfold Profile_useEffect, localStorage_getItem.
  intros [E|[E|(raw & E & Hparse)]]; rewrite E; cbn; auto.
  destruct (falsy raw); cbn; auto. rewrite Hparse. cbn. auto.
Qed.

(** X9: a logout removes the stored user and leaves for ["/"], whatever
    was stored; a [Profile] mounted afterwards leaves for ["/"] as well
    and sends no request. *)
Theorem handleLogout_then_mount (b : Browser) :
  handleLogout b = mkBrowser None "/"
  /\ fst (Profile_useEffect (handleLogout b)) = mkBrowser None "/"
  /\ (forall (W : Type) (net : Network W) (s : State) (w : W),
         exec net (snd (Profile_useEffect (handleLogout b))) s w
         = (s, w, [])).
Proof.
  repeat split.
Qed.

Lemma find_first_match (A : Type) (f : A -> bool) (l : list A) (x : A) :
  In x l -> f x = true -> exists y, find f l = Some y.
Proof.
  intros Hin Hf. destruct (find f l) as [y|] eqn:E; [now exists y|].
  now rewrite (find_none _ _ E x Hin) in Hf.
Qed.

(** X10: with an email and a password that are not empty and that some
    loaded user has, the submit logs in the first user of the list with
    that email and password: it stores that record, password included,
    under ["loggedInUser"], goes to ["/profile"], hides the dialog and
    shows no message. *)
Theorem Login_handleSubmit_accepts (s : Login.t) (b : Browser) (u : User.t) :
  In u (Login.users s) ->
  User.email u = Login.email s ->
  User.password u = Login.password s ->
  Login.email s <> "" ->
  Login.password s <> "" ->
  exists user,
    find (Login.sameCredentials s) (Login.users s) = Some user
    /\ In user (Login.users s)
    /\ User.email user = Login.email s
    /\ User.password user = Login.password s
    /\ Login.handleSubmit s b
       = (Login.setShow false (Login.setError Login.Error.empty s),
          mkBrowser (Some (JSON_stringify user)) "/profile").
Proof.
  intros Hin Hemail Hpassword Hne Hnp.
  assert (Hmatch : Login.sameCredentials s u = true).
  { unfold Login.sameCredentials.
    now rewrite Hemail, Hpassword, !String.eqb_refl. }
  destruct (find_first_match _ _ _ _ Hin Hmatch) as [user Hfind].
  exists user.
  destruct (find_some _ _ Hfind) as [Hin' Hsame].
  unfold Login.sameCredentials in Hsame.
  apply andb_true_iff in Hsame. destruct Hsame as [He Hp].
  apply String.eqb_eq in He. apply String.eqb_eq in Hp.
  repeat split; try assumption.
  unfold Login.handleSubmit.
  rewrite (falsy_false _ Hne), (falsy_false _ Hnp). cbn.
  now rewrite Hfind.
Qed.

(** X11: when the email or the password is empty, or no loaded user has
    both, the submit stores nothing and goes nowhere; the dialog and the
    entries stay as they are, and at least one message is shown.  An empty
    field is reported as required; otherwise the password is reported as
    incorrect when some user has the email, and the email as not
    registered when none has. *)
Theorem Login_handleSubmit_rejects (s : Login.t) (b : Browser) :
  Login.email s = "" \/ Login.password s = ""
  \/ (forall u, In u (Login.users s) ->
                ~ (User.email u = Login.email s
                   /\ User.password u = Login.password s)) ->
  snd (Login.handleSubmit s b) = b
  /\ Login.show (fst (Login.handleSubmit s b)) = Login.show s
  /\ Login.email (fst (Login.handleSubmit s b)) = Login.email s
  /\ Login.password (fst (Login.handleSubmit s b)) = Login.password s
  /\ Login.Error.any (Login.error (fst (Login.handleSubmit s b))) = true
  /\ Login.Error.email (Login.error (fst (Login.handleSubmit s b)))
     = (if falsy (Login.email s) then Some "Email is required"
        else if falsy (Login.password s) then None
        else if existsb (Login.sameEmail s) (Login.users s) then None
        else Some "This email is not registered. Create an account!")
  /\ Login.Error.password (Login.error (fst (Login.handleSubmit s b)))
     = (if falsy (Login.password s) then Some "Password is required"
        else if falsy (Login.email s) then None
        else if existsb (Login.sameEmail s) (Login.users s)
             then Some "Incorrect password"
             else None).
Proof.
  intros Hbad. unfold Login.handleSubmit.
  destruct (falsy (Login.email s)) eqn:He;
    destruct (falsy (Login.password s)) eqn:Hp; cbn;
    try (repeat split; reflexivity).
  destruct Hbad as [E|[E|Hnone]];
    [rewrite E in He; discriminate | rewrite E in Hp; discriminate |].
  destruct (find (Login.sameCredentials s) (Login.users s)) as [user|] eqn:Hfind.
  - exfalso. destruct (find_some _ _ Hfind) as [Hin Hsame].
    unfold Login.sameCredentials in Hsame.
    apply andb_true_iff in Hsame. destruct Hsame as [E1 E2].
    apply String.eqb_eq in E1. apply String.eqb_eq in E2.
    now apply (Hnone user Hin).
  - destruct (find (Login.sameEmail s) (Login.users s)) as [existing|] eqn:Hmail.
    + assert (Hex : existsb (Login.sameEmail s) (Login.users s) = true).
      { destruct (find_some _ _ Hmail) as [Hin Hsame].
        apply existsb_exists. now exists existing. }
      rewrite Hex. cbn. repeat split; reflexivity.
    + assert (Hex : existsb (Login.sameEmail s) (Login.users s) = false).
      { destruct (existsb (Login.sameEmail s) (Login.users s)) eqn:E;
          [|reflexivity].
        apply existsb_exists in E. destruct E as (x & Hin & Hx).
        now rewrite (find_none _ _ Hmail x Hin) in Hx. }
      rewrite Hex. cbn. repeat split; reflexivity.
Qed.

(** X12: while no users are loaded, which is how a failed load of
    [/db/data.json] leaves the form, every submit with an email and a
    password is refused with the email reported as not registered. *)
Theorem Login_without_users (s : Login.t) (b : Browser) :
  Login.users s = [] ->
  Login.email s <> "" ->
  Login.password s <> "" ->
  Login.users (Login.useEffect None s) = []
  /\ Login.handleSubmit (Login.useEffect None s) b
     = (Login.setError
          (Login.Error.mk
             (Some "This email is not registered. Create an account!") None)
          s,
        b).
Proof.
  intros Hnone Hne Hnp. split; [exact Hnone|].
  unfold Login.handleSubmit, Login.useEffect.
  rewrite (falsy_false _ Hne), (falsy_false _ Hnp), Hnone. reflexivity.
Qed.

(** X13: after a login, a [Profile] that mounts finds the stored record:
    provided the text written for the user reads back as that user, the
    page stays at ["/profile"], sets that user and sends the one request
    that lists the posts. *)
Theorem login_then_mount (s : Login.t) (b : Browser) (u : User.t) :
  find (Login.sameCredentials s) (Login.users s) = Some u ->
  Login.email s <> "" ->
  Login.password s <> "" ->
  JSON_stringify u <> "" ->
  JSON_parse (JSON_stringify u) = Some u ->
  location (snd (Login.handleSubmit s b)) = "/profile"
  /\ fst (Profile_useEffect (snd (Login.handleSubmit s b)))
     = snd (Login.handleSubmit s b)
  /\ (forall (W : Type) (net : Network W) (s0 : State) (w : W),
         user (finalState
                 net (snd (Profile_useEffect (snd (Login.handleSubmit s b))))
                 s0 w)
         = Some u
         /\ requests
              net (snd (Profile_useEffect (snd (Login.handleSubmit s b))))
              s0 w
            = [GET_posts]).
Proof.
  intros Hfind Hne Hnp Htext Hback.
  unfold Login.handleSubmit.
  rewrite (falsy_false _ Hne), (falsy_false _ Hnp). cbn. rewrite Hfind.
  unfold Profile_useEffect. cbn.
  rewrite (falsy_false _ Htext), Hback. cbn.
  split; [reflexivity|]. split; [reflexivity|].
  intros W net s0 w.
  change (setUser (Some u);; getPosts u)%hook with (useEffect_mount (Some u)).
  unfold finalState, requests, events.
  rewrite exec_mount, exec_getPosts. cbn.
  split; [|reflexivity]. now case_list_answer.
Qed.

End Storage.

(* ================================================================== *)
(** ** A submit followed by the delete of the created post *)

Section RoundTrip.
Context {dates : DateModel}.

Lemma remote_reachable (req : Request) (w : Remote) :
  outages w = [] -> remote req w = store req w.
Proof. unfold remote. now intros ->. Qed.

Lemma filter_fresh_id (postId : string) (l : list Post.t) :
  ~ In postId (map Post.id l) ->
  filter (fun p => negb (hasId postId p)) l = l.
Proof.
  intros Hfresh. apply filter_all. apply Forall_forall. intros p Hin.
  unfold hasId. destruct (String.eqb_spec (Post.id p) postId) as [E|E];
    [|reflexivity].
  exfalso. apply Hfresh. rewrite <- E. now apply in_map.
Qed.

(** X14: with the store reachable and assigning an id that no record has
    yet, a submit followed by the delete of the post it created leaves the
    store with the records it had before, and [posts] is the ordered list
    of the user's records among them. *)
Theorem create_then_delete_restores
        (now : string) (s : State) (w : Remote) (usr : User.t) :
  user s = Some usr ->
  NewPost.title (newPost s) <> "" ->
  NewPost.text (newPost s) <> "" ->
  outages w = [] ->
  ~ In (assignId w (db w)) (map Post.id (db w)) ->
  db (snd (session remote
                   [PostSubmit now; DeletePost (assignId w (db w))] s w))
  = db w
  /\ posts (fst (session remote
                         [PostSubmit now; DeletePost (assignId w (db w))] s w))
     = userPosts usr (db w)
  /\ isLoading (fst (session remote
                             [PostSubmit now; DeletePost (assignId w (db w))]
                             s w))
     = false.
Proof.
  intros Hu Htitle Htext Hup Hfresh.
  destruct w as [records assign down]. cbn in Hup, Hfresh. subst down.
  set (created := Post.mk (assign records) (User.id usr) now
                          (NewPost.title (newPost s))
                          (NewPost.text (newPost s))).
  assert (Hexists : existsb (hasId (assign records)) (records ++ [created])
                    = true).
  { rewrite existsb_app. cbn. unfold hasId at 1. cbn.
    rewrite String.eqb_refl. now rewrite orb_true_r. }
  assert (Hrest : filter (fun p => negb (hasId (assign records) p))
                         (records ++ [created]) = records).
  { rewrite filter_app, (filter_fresh_id _ _ Hfresh). cbn.
    unfold hasId. cbn. rewrite String.eqb_refl. cbn. apply app_nil_r. }
  assert (Hsubmit :
            exists s1 evs,
              exec remote (handlePostSubmit now) s
                   (mkRemote records assign [])
              = (s1, mkRemote (records ++ [created]) assign [], evs)
              /\ user s1 = Some usr).
  { rewrite (exec_handlePostSubmit _ remote now s _
               (falsy_false _ Htitle) (falsy_false _ Htext)).
    cbv zeta. rewrite Hu. unfold remote, newPostData. rewrite Hu. cbn.
    eexists. eexists. split; [reflexivity | exact Hu]. }
  destruct Hsubmit as (s1 & evs & Hsubmit & Hu1).
  rewrite !session_cons. cbn [session perform fst snd db assignId].
  unfold finalState. rewrite Hsubmit. cbn [fst snd].
  rewrite exec_handleDeletePost. cbv zeta. rewrite Hu1.
  unfold remote. cbn. rewrite Hexists. cbn. rewrite Hrest. auto.
Qed.

End RoundTrip.

(* ================================================================== *)
(** ** What a failed delete and a repeated login leave behind *)

Section Leftovers.
Context {json : JSONModel} {dates : DateModel}.

(** X15: when the delete request fails, a displayed post of the user that
    the store holds is still displayed once the handler has completed,
    whether the list request after it is answered or not. *)
Theorem handleDeletePost_failure_keeps_posts
        (postId : string) (s : State) (w : Remote) (usr : User.t)
        (p : Post.t) :
  user s = Some usr ->
  fst (remote (DELETE_posts postId) w) = None ->
  In p (posts s) ->
  In p (db w) ->
  Post.userId p = User.id usr ->
  In p (posts (finalState remote (handleDeletePost postId) s w)).
Proof.
  intros Hu Hfail Hshown Hstored Hown.
  pose proof (remote_DELETE_failed _ _ Hfail) as Hdb.
  unfold finalState. rewrite exec_handleDeletePost. cbv zeta.
  rewrite Hu, Hfail.
  set (w1 := snd (remote (DELETE_posts postId) w)) in *.
  destruct (remote_GET w1) as [E|E]; rewrite E; cbn; [assumption|].
  apply userPosts_In. rewrite Hdb. now split.
Qed.

(** X16: the messages of the login form are computed afresh by every
    submit: what a submit does, and the messages it leaves, do not depend
    on the messages that were shown before it. *)
Theorem Login_handleSubmit_forgets_messages
        (e : Login.Error.t) (s : Login.t) (b : Browser) :
  Login.handleSubmit (Login.setError e s) b = Login.handleSubmit s b.
Proof.
  unfold Login.handleSubmit. cbn.
  change (Login.sameCredentials (Login.setError e s))
    with (Login.sameCredentials s).
  change (Login.sameEmail (Login.setError e s)) with (Login.sameEmail s).
  destruct (falsy (Login.email s)), (falsy (Login.password s)); reflexivity.
Qed.

End Leftovers.

(* ================================================================== *)
(** ** The further theorems at concrete pages, stores and logins *)

Section MoreInstances.
Import Example Scenario.
#[local] Existing Instance ISO.dates.
#[local] Existing Instance JSONText.json.

Lemma posts_owned_throughout_witness :
  forallb afterMount (writing "Title" "Text" ++ [DeletePost "p4"]) = true
  /\ Forall (fun post => Post.userId post = User.id alice)
            (posts (fst (session remote
                                 (Mount (Some alice)
                                        :: writing "Title" "Text"
                                        ++ [DeletePost "p4"])
                                 initialState reachable))).
Proof.
  split; [reflexivity|].
  apply (posts_owned_throughout
           alice (writing "Title" "Text" ++ [DeletePost "p4"]) reachable).
  reflexivity.
Defined.

Lemma posts_mirror_store_after_relist_witness :
  (user (drafting "Title" "Text" loaded) = Some alice
   /\ posts (finalState remote (handlePostSubmit january3)
                        (drafting "Title" "Text" loaded) reachable)
      = userPosts alice
                  (db (finalWorld remote (handlePostSubmit january3)
                                  (drafting "Title" "Text" loaded) reachable)))
  /\ (user loaded = Some alice
      /\ posts (finalState remote (handleDeletePost "p1") loaded reachable)
         = userPosts alice
                     (db (finalWorld remote (handleDeletePost "p1")
                                     loaded reachable))).
Proof.
  destruct posts_mirror_store_after_relist as (Hsubmit & Hdelete).
  split; (split; [reflexivity|]).
  - apply (Hsubmit january3 (drafting "Title" "Text" loaded) reachable alice);
      discriminate || reflexivity.
  - apply (Hdelete "p1" loaded reachable alice);
      discriminate || reflexivity.
Defined.

Lemma handleDeletePost_success_removes_witness :
  fst (remote (DELETE_posts "p4") reachable) = Some tt
  /\ ~ In "p4" (map Post.id (posts loaded))
  /\ ~ In "p4"
        (map Post.id
             (db (finalWorld remote (handleDeletePost "p4") loaded reachable))).
Proof.
  split; [reflexivity|]. split.
  - cbn. intros [H|[]]. discriminate.
  - apply (handleDeletePost_success_removes "p4" loaded reachable).
    reflexivity.
Defined.

Lemma typed_draft_is_posted_witness :
  user loaded = Some alice
  /\ session remote [InputChange name_title "Title"; InputChange name_text "Text"]
             loaded reachable
     = (withNewPost (NewPost.mk "Title" "Text") loaded, reachable)
  /\ requests remote (handlePostSubmit january3)
              (withNewPost (NewPost.mk "Title" "Text") loaded) reachable
     = [POST_posts (NewPostData.mk (Some "u1") "Title" "Text" january3);
        GET_posts].
Proof.
  assert (Htitle : "Title" <> "") by discriminate.
  assert (Htext : "Text" <> "") by discriminate.
  destruct (typed_draft_is_posted
              _ remote "Title" "Text" january3 loaded reachable alice
              eq_refl Htitle Htext) as (Hfill & _ & Hsent).
  repeat split; assumption || reflexivity.
Defined.

Lemma newest_post_on_top_witness :
  fst (remote (POST_posts (newPostData (drafting "Title" "Text" loaded)
                                       january3))
              reachable)
  = Some (Post.mk "n3" "u1" january3 "Title" "Text")
  /\ Date_getTime january3 <> NaN
  /\ hd_error (posts (finalState remote (handlePostSubmit january3)
                                 (drafting "Title" "Text" loaded) reachable))
     = Some (Post.mk "n3" "u1" january3 "Title" "Text").
Proof.
  assert (Htitle : NewPost.title (newPost (drafting "Title" "Text" loaded))
                   <> "") by discriminate.
  assert (Htext : NewPost.text (newPost (drafting "Title" "Text" loaded))
                  <> "") by discriminate.
  assert (Hnow : Date_getTime january3 <> NaN) by (vm_compute; discriminate).
  assert (Holder :
            Forall (fun p => Post.userId p = User.id alice ->
                             Number_gtb (Date_getTime january3) (timestamp p)
                             = true)
                   (db reachable)).
  { apply Forall_cons; [intros _; reflexivity|].
    apply Forall_cons; [intros Hown; discriminate Hown | apply Forall_nil]. }
  split; [reflexivity|]. split; [exact Hnow|].
  exact (newest_post_on_top
           january3 (drafting "Title" "Text" loaded) reachable alice
           (Post.mk "n3" "u1" january3 "Title" "Text")
           eq_refl Htitle Htext eq_refl Hnow Holder).
Defined.

Lemma userPosts_idempotent_witness :
  Forall (fun p => Post.userId p = User.id alice -> timestamp p <> NaN)
         [january1; foreign; january2]
  /\ userPosts alice (userPosts alice [january1; foreign; january2])
     = userPosts alice [january1; foreign; january2].
Proof.
  assert (H : Forall (fun p => Post.userId p = User.id alice ->
                               timestamp p <> NaN)
                     [january1; foreign; january2]).
  { apply Forall_cons; [intros _; vm_compute; discriminate|].
    apply Forall_cons; [intros Hown; discriminate Hown|].
    apply Forall_cons; [intros _; vm_compute; discriminate | apply Forall_nil]. }
  split; [exact H|].
  exact (userPosts_idempotent alice [january1; foreign; january2] H).
Defined.

Lemma isLoading_false_at_rest_witness :
  isLoading loaded = false
  /\ isLoading (fst (session remote
                             (writing "Title" "Text" ++ [DeletePost "p9"])
                             loaded unreachable))
     = false.
Proof.
  split; [reflexivity|].
  apply (isLoading_false_at_rest
           _ remote (writing "Title" "Text" ++ [DeletePost "p9"])
           loaded unreachable).
  reflexivity.
Defined.

Lemma Profile_useEffect_without_user_witness :
  JSON_parse "no json" = None
  /\ location (fst (Profile_useEffect (mkBrowser (Some "no json") "/profile")))
     = "/"
  /\ loggedInUser
       (fst (Profile_useEffect (mkBrowser (Some "no json") "/profile")))
     = Some "no json".
Proof.
  assert (Hbad : loggedInUser (mkBrowser (Some "no json") "/profile") = None
                 \/ loggedInUser (mkBrowser (Some "no json") "/profile")
                    = Some ""
                 \/ (exists raw,
                        loggedInUser (mkBrowser (Some "no json") "/profile")
                        = Some raw
                        /\ JSON_parse raw = None)).
  { right. right. exists "no json". split; reflexivity. }
  destruct (Profile_useEffect_without_user
              (mkBrowser (Some "no json") "/profile") Hbad)
    as (Hloc & Hitem & _).
  repeat split; assumption || reflexivity.
Defined.

Lemma Login_handleSubmit_accepts_witness :
  In alice (Login.users (form "alice@example.com" "secret"))
  /\ exists user,
      find (Login.sameCredentials (form "alice@example.com" "secret"))
           (Login.users (form "alice@example.com" "secret"))
      = Some user
      /\ In user (Login.users (form "alice@example.com" "secret"))
      /\ User.email user = "alice@example.com"
      /\ User.password user = "secret"
      /\ Login.handleSubmit (form "alice@example.com" "secret") atLogin
         = (Login.setShow false
              (Login.setError Login.Error.empty
                              (form "alice@example.com" "secret")),
            mkBrowser (Some (JSON_stringify user)) "/profile").
Proof.
  assert (Hin : In alice (Login.users (form "alice@example.com" "secret")))
    by (left; reflexivity).
  assert (Hne : Login.email (form "alice@example.com" "secret") <> "")
    by discriminate.
  assert (Hnp : Login.password (form "alice@example.com" "secret") <> "")
    by discriminate.
  split; [exact Hin|].
  exact (Login_handleSubmit_accepts
           (form "alice@example.com" "secret") atLogin alice
           Hin eq_refl eq_refl Hne Hnp).
Defined.

Lemma Login_handleSubmit_rejects_witness :
  (forall u, In u (Login.users (form "alice@example.com" "wrong")) ->
             ~ (User.email u = "alice@example.com"
                /\ User.password u = "wrong"))
  /\ snd (Login.handleSubmit (form "alice@example.com" "wrong") atLogin)
     = atLogin
  /\ Login.error
       (fst (Login.handleSubmit (form "alice@example.com" "wrong") atLogin))
     = Login.Error.mk None (Some "Incorrect password").
Proof.
  assert (Hnone :
            forall u, In u (Login.users (form "alice@example.com" "wrong")) ->
                      ~ (User.email u = Login.email
                                          (form "alice@example.com" "wrong")
                         /\ User.password u
                            = Login.password
                                (form "alice@example.com" "wrong"))).
  { intros u [<-|[<-|[]]] [_ H]; discriminate H. }
  split; [exact Hnone|].
  destruct (Login_handleSubmit_rejects
              (form "alice@example.com" "wrong") atLogin
              (or_intror (or_intror Hnone))) as (Hb & _).
  split; [exact Hb | reflexivity].
Defined.

Lemma Login_without_users_witness :
  Login.users (Login.setPassword "secret"
                 (Login.setEmail "alice@example.com" Login.initial)) = []
  /\ Login.handleSubmit
       (Login.useEffect
          None
          (Login.setPassword "secret"
             (Login.setEmail "alice@example.com" Login.initial)))
       atLogin
     = (Login.setError
          (Login.Error.mk
             (Some "This email is not registered. Create an account!") None)
          (Login.setPassword "secret"
             (Login.setEmail "alice@example.com" Login.initial)),
        atLogin).
Proof.
  assert (Hne : Login.email (Login.setPassword "secret"
                               (Login.setEmail "alice@example.com"
                                               Login.initial)) <> "")
    by discriminate.
  assert (Hnp : Login.password (Login.setPassword "secret"
                                  (Login.setEmail "alice@example.com"
                                                  Login.initial)) <> "")
    by discriminate.
  split; [reflexivity|].
  apply (Login_without_users
           (Login.setPassword "secret"
              (Login.setEmail "alice@example.com" Login.initial))
           atLogin eq_refl Hne Hnp).
Defined.

Lemma login_then_mount_witness :
  find (Login.sameCredentials (form "alice@example.com" "secret"))
       (Login.users (form "alice@example.com" "secret"))
  = Some alice
  /\ JSON_parse (JSON_stringify alice) = Some alice
  /\ location loggedIn = "/profile"
  /\ user (finalState remote (snd (Profile_useEffect loggedIn))
                      initialState reachable)
     = Some alice
  /\ requests remote (snd (Profile_useEffect loggedIn)) initialState reachable
     = [GET_posts].
Proof.
  assert (Hne : Login.email (form "alice@example.com" "secret") <> "")
    by discriminate.
  assert (Hnp : Login.password (form "alice@example.com" "secret") <> "")
    by discriminate.
  assert (Htext : JSON_stringify alice <> "") by discriminate.
  destruct (login_then_mount
              (form "alice@example.com" "secret") atLogin alice
              eq_refl Hne Hnp Htext eq_refl) as (Hloc & _ & Hmount).
  destruct (Hmount Remote remote initialState reachable) as (Huser & Hreq).
  repeat split; assumption || reflexivity.
Defined.

Lemma create_then_delete_restores_witness :
  ~ In (assignId reachable (db reachable)) (map Post.id (db reachable))
  /\ db (snd (session remote [PostSubmit january3; DeletePost "n3"]
                      (drafting "Title" "Text" loaded) reachable))
     = db reachable
  /\ posts (fst (session remote [PostSubmit january3; DeletePost "n3"]
                         (drafting "Title" "Text" loaded) reachable))
     = posts loaded.
Proof.
  assert (Htitle : NewPost.title (newPost (drafting "Title" "Text" loaded))
                   <> "") by discriminate.
  assert (Htext : NewPost.text (newPost (drafting "Title" "Text" loaded))
                  <> "") by discriminate.
  assert (Hfresh : ~ In (assignId reachable (db reachable))
                        (map Post.id (db reachable))).
  { vm_compute. intros [H|[H|[]]]; discriminate H. }
  destruct (create_then_delete_restores
              january3 (drafting "Title" "Text" loaded) reachable alice
              eq_refl Htitle Htext eq_refl Hfresh) as (Hdb & Hposts & _).
  repeat split; assumption.
Defined.

Lemma handleDeletePost_failure_keeps_posts_witness :
  fst (remote (DELETE_posts "p1") unreachable) = None
  /\ In january1 (posts loaded)
  /\ In january1 (posts (finalState remote (handleDeletePost "p1")
                                    loaded unreachable)).
Proof.
  assert (Hshown : In january1 (posts loaded)) by (left; reflexivity).
  assert (Hstored : In january1 (db unreachable)) by (left; reflexivity).
  split; [reflexivity|]. split; [exact Hshown|].
  exact (handleDeletePost_failure_keeps_posts
           "p1" loaded unreachable alice january1
           eq_refl eq_refl Hshown Hstored eq_refl).
Defined.

(** A page that never got its list: the mount could not load the posts,
    the submit that followed showed the created post without listing, and
    now the delete of that post and the list request after it fail as
    well.  The page still shows the created post alone, while the store
    holds an older post of the user beside it. *)
Lemma handleDeletePost_failure_stale_posts :
  user stranded = Some alice
  /\ fst (remote (DELETE_posts "n3") strandedStore) = None
  /\ requests remote (handleDeletePost "n3") stranded strandedStore
     = [DELETE_posts "n3"; GET_posts]
  /\ isLoading (finalState remote (handleDeletePost "n3")
                           stranded strandedStore) = false
  /\ posts (finalState remote (handleDeletePost "n3") stranded strandedStore)
     = [Post.mk "n3" "u1" january3 "Title" "Text"]
  /\ userPosts alice
               (db (finalWorld remote (handleDeletePost "n3")
                               stranded strandedStore))
     = [Post.mk "n3" "u1" january3 "Title" "Text"; january1]
  /\ posts (finalState remote (handleDeletePost "n3") stranded strandedStore)
     <> userPosts alice
                  (db (finalWorld remote (handleDeletePost "n3")
                                  stranded strandedStore)).
Proof.
  repeat split. vm_compute. discriminate.
Qed.

End MoreInstances.
